(** * Habit completion and streak bookkeeping

    A shallow embedding of the habit part of the tracker's backend
    ([backend/services.py], [backend/models.py], with the table layout of
    [backend/database.py]) and the properties of its streak engine.

    Modelling conventions.

    - A calendar date is its day number (the proleptic Gregorian ordinal that
      [datetime.strptime(s, '%Y-%m-%d')] denotes).  The code stores dates as
      ['%Y-%m-%d'] text, always produced by [strftime]; subtracting two parsed
      dates and taking [.days] is the difference of the day numbers, and
      [ORDER BY date] on such text is the order of the day numbers.
    - The table [habits] is a finite map from the primary key [id] to the
      remaining columns.  The table [habit_completions] carries the constraint
      [UNIQUE(habit_id, date)] and none of the modelled statements read its
      [id] or [created_at] columns, so it is the finite set of its
      [(habit_id, date)] pairs.
    - [datetime.now()] is an input of every operation: the argument [today]
      is the reading of the system clock, not something the caller passes.
    - Every service method returns the Python pair [(result, error)], one of
      whose components is [None]; it is modelled as a pair of options, next
      to the database the call leaves behind.
    - [streak] is an integer and [last_done] is a date or [NULL], as every
      statement of the habit services writes them.  Column values of other
      kinds, which only an import of foreign JSON can insert, are outside the
      model, and so are failures of the storage engine itself: the store is a
      pure value.
    - The modules [HabitService] and [TaskService], and
      [HabitManager.complete_habit], hold the statements of each method as
      they run when every statement parameter can be bound and every text
      field is text.  The modules [Dynamic] and [TaskDynamic] put in front
      of them what Python does with the other arguments a caller can pass:
      an [int] outside SQLite's signed 64-bit range makes the binding raise
      [OverflowError], and a name that is not a string has no [strip].
      Whether that exception leaves the method or is turned into an error
      value depends on where the method has its [try], and is modelled per
      method.  The routes call the methods of [Dynamic];
      [HabitManager.delete_habit] and the delete route, which run their own
      statements, carry their [except] arm themselves. *)

From Stdlib Require Import ZArith Ascii String List Sorted Lia.
From stdpp Require Import gmap strings list sorting fin_sets.

#[local] Set Warnings "-clear-no-such-hyp".

Local Open Scope Z_scope.

(** ** Tables *)

Abbreviation date := Z.

Module Schema.

(** One row of [habits], without its key. *)
Record habit_row := HabitRow {
name : string;
streak : Z;
last_done : option date;
created_at : string;
reminder_time : option string;
is_archived : Z
}.

Record DB := MkDB {
habits : gmap Z habit_row;
habit_completions : gset (Z * date)
}.

End Schema.
Export Schema.

(** ** Values at run time

    [sqlite3] binds a Python [int] to a statement parameter as a signed
    64-bit integer and raises [OverflowError] for every other [int].  The
    routes take their ids through Flask's [int] converter, which accepts any
    run of digits, so such an [int] does reach the statements. *)

Module Runtime.

Inductive exception := OverflowError.

(** What a call leaves to its caller: the value it returns, or the
    exception that leaves it. *)
Inductive outcome (A : Type) := Return (a : A) | Raise (e : exception).
Arguments Return {A} a.
Arguments Raise {A} e.

Definition bindable (n : Z) : bool := (- 2 ^ 63 <=? n) && (n <? 2 ^ 63).

(** [str(e)] for the [OverflowError] of a binding. *)
Definition too_large : string :=
  "Python int too large to convert to SQLite INTEGER".

(** A field of a JSON object that is present and not [null]: text, or a
    value of another kind (a number, a boolean, an array, an object). *)
Inductive json := JString (s : string) | JOther.

End Runtime.

(** ** SQL statements used by the habit services

    Each definition is a statement with its parameters bound: what it reads
    or writes once the binding has succeeded.  The binding itself, which
    fails for an [int] outside the signed 64-bit range, is checked where
    the methods are entered, in [Dynamic]. *)

Module Sql.

(** [SELECT * FROM habits WHERE id = ?] followed by [fetchone()]. *)
Definition select_habit (habit_id : Z) (db : DB) : option habit_row :=
  habits db !! habit_id.

(** [SELECT id FROM habit_completions WHERE habit_id = ? AND date = ?]
    followed by [fetchone()], used only for its truth value. *)
Definition completion_exists (habit_id : Z) (d : date) (db : DB) : bool :=
  bool_decide ((habit_id, d) ∈ habit_completions db).

(** [INSERT INTO habit_completions (habit_id, date, created_at) VALUES (?, ?, ?)]. *)
Definition insert_completion (habit_id : Z) (d : date) (db : DB) : DB :=
  MkDB (habits db) ({[ (habit_id, d) ]} ∪ habit_completions db).

(** [DELETE FROM habit_completions WHERE habit_id = ? AND date = ?]. *)
Definition delete_completion (habit_id : Z) (d : date) (db : DB) : DB :=
  MkDB (habits db) (habit_completions db ∖ {[ (habit_id, d) ]}).

Definition set_streak_last_done (s : Z) (l : option date) (r : habit_row) : habit_row :=
  HabitRow (name r) s l (created_at r) (reminder_time r) (is_archived r).

(** [UPDATE habits SET streak = ?, last_done = ? WHERE id = ?]. *)
Definition update_streak (s : Z) (l : option date) (habit_id : Z) (db : DB) : DB :=
  MkDB (alter (set_streak_last_done s l) habit_id (habits db)) (habit_completions db).

(** The dates of the completion rows of one habit. *)
Definition completion_dates (habit_id : Z) (db : DB) : gset date :=
  set_map snd (filter (λ r : Z * date, r.1 = habit_id) (habit_completions db)).

(** [SELECT date FROM habit_completions WHERE habit_id = ? ORDER BY date DESC]
    followed by [fetchall()]. *)
Definition select_dates_desc (habit_id : Z) (db : DB) : list date :=
  merge_sort Z.ge (elements (completion_dates habit_id db)).

(** One [column = ?] item of an [UPDATE habits SET ...] with its value. *)
Inductive assignment :=
  | SetName (v : string)
  | SetReminderTime (v : option string).

Definition assign (r : habit_row) (a : assignment) : habit_row :=
  match a with
  | SetName v =>
    HabitRow v (streak r) (last_done r) (created_at r) (reminder_time r) (is_archived r)
  | SetReminderTime v =>
    HabitRow (name r) (streak r) (last_done r) (created_at r) v (is_archived r)
  end.

(** [UPDATE habits SET {', '.join(updates)} WHERE id = ?]. *)
Definition update_habit_fields (updates : list assignment) (habit_id : Z) (db : DB) : DB :=
  MkDB (alter (λ r, foldl assign r updates) habit_id (habits db))
       (habit_completions db).

(** [SELECT id FROM habits WHERE LOWER(name) = LOWER(?) AND id != ?]
    followed by [fetchone()], used only for its truth value.  [lower] is
    SQLite's [LOWER]. *)
Definition duplicate_name (lower : string → string) (new_name : string)
    (habit_id : Z) (db : DB) : bool :=
  existsb (λ kr : Z * habit_row,
             String.eqb (lower (name kr.2)) (lower new_name)
             && negb (kr.1 =? habit_id))
          (map_to_list (habits db)).

Definition set_is_archived (v : Z) (r : habit_row) : habit_row :=
  HabitRow (name r) (streak r) (last_done r) (created_at r) (reminder_time r) v.

(** [UPDATE habits SET is_archived = ? WHERE id = ?], with the cursor's
    [rowcount]. *)
Definition update_is_archived (v : Z) (habit_id : Z) (db : DB) : DB * Z :=
  (MkDB (alter (set_is_archived v) habit_id (habits db)) (habit_completions db),
   match habits db !! habit_id with Some _ => 1 | None => 0 end).

(** The row count selected from [habit_completions WHERE habit_id = ? AND date = ?]:
    by [UNIQUE(habit_id, date)] there is at most one such row. *)
Definition count_completion (habit_id : Z) (d : date) (db : DB) : Z :=
  if bool_decide ((habit_id, d) ∈ habit_completions db) then 1 else 0.

(** The order of [ORDER BY created_at DESC]: [created_at] is text and is
    compared byte by byte. *)
Definition created_desc (a b : Z * habit_row) : Prop :=
  String.leb (created_at b.2) (created_at a.2) = true.

#[global] Instance created_desc_dec : RelDecision created_desc :=
  λ a b, decide (String.leb (created_at b.2) (created_at a.2) = true).

(** [SELECT * FROM habits WHERE COALESCE(is_archived, 0) = ? ORDER BY created_at DESC]
    followed by [fetchall()].  SQL leaves the order of rows with equal
    [created_at] open; the properties below do not depend on it. *)
Definition select_habits_archived (flag : Z) (db : DB) : list (Z * habit_row) :=
  merge_sort created_desc
             (filter (λ kr : Z * habit_row, is_archived kr.2 = flag)
                     (map_to_list (habits db))).

(** [SELECT id FROM habits WHERE LOWER(name) = LOWER(?)] followed by
    [fetchone()], used only for its truth value. *)
Definition name_taken (lower : string → string) (habit_name : string) (db : DB) : bool :=
  existsb (λ kr : Z * habit_row, String.eqb (lower (name kr.2)) (lower habit_name))
          (map_to_list (habits db)).

(** [INSERT INTO habits (name, streak, last_done, created_at[, reminder_time])
    VALUES (?, 0, NULL, ?[, ?])]; [rowid] is the key the engine gives the new
    row ([cursor.lastrowid]), [is_archived] takes its default 0. *)
Definition insert_habit (rowid : Z) (habit_name now_iso : string)
    (reminder : option string) (db : DB) : DB :=
  MkDB (<[rowid := HabitRow habit_name 0 None now_iso reminder 0]> (habits db))
       (habit_completions db).

(** [DELETE FROM habit_completions WHERE habit_id = ?]. *)
Definition delete_completions_of (habit_id : Z) (db : DB) : DB :=
  MkDB (habits db)
       (filter (λ r : Z * date, r.1 ≠ habit_id) (habit_completions db)).

(** [DELETE FROM habits WHERE id = ?], with the cursor's [rowcount]. *)
Definition delete_habit_row (habit_id : Z) (db : DB) : DB * Z :=
  (MkDB (delete habit_id (habits db)) (habit_completions db),
   match habits db !! habit_id with Some _ => 1 | None => 0 end).

(** The row count selected from [habits]. *)
Definition count_habits (db : DB) : Z := Z.of_nat (size (habits db)).

(** The row count selected from [habit_completions WHERE date = ?]. *)
Definition count_completions_on (d : date) (db : DB) : Z :=
  Z.of_nat (size (filter (λ r : Z * date, r.2 = d) (habit_completions db))).

(** [SELECT streak FROM habits] followed by [fetchall()]. *)
Definition select_streaks (db : DB) : list Z :=
  (λ kr : Z * habit_row, streak kr.2) <$> map_to_list (habits db).

End Sql.

(** ** [services.py]: class [HabitService]

    The statements of each method, for arguments that can be bound and a
    name that is text.  What the methods do with other arguments is in
    [Dynamic]. *)

Module HabitService.
Import Sql.

(** The dictionary [{'success': True, 'new_streak': new_streak}]. *)
Record streak_result := StreakResult { success : bool; new_streak : Z }.

Definition ret (A : Type) : Type := (option A * option string)%type.

Definition complete_habit_for_today (today : date) (habit_id : Z) (db : DB)
  : ret streak_result * DB :=
  match select_habit habit_id db with
  | None => ((None, Some "Habit not found"%string), db)
  | Some habit =>
    if completion_exists habit_id today db
    then ((None, Some "Habit already completed today"%string), db)
    else
      let new_streak :=
        match last_done habit with
        | Some last =>
          let days_diff := today - last in
          if days_diff =? 1 then streak habit + 1 else 1
        | None => 1
        end in
      let db := insert_completion habit_id today db in
      let db := update_streak new_streak (Some today) habit_id db in
      ((Some (StreakResult true new_streak), None), db)
  end.

(** The [for row in dates[1:]] loop: [rows] is what is left to visit. *)
Fixpoint streak_loop (rows : list date) (expected : date) (new_streak : Z) : Z :=
  match rows with
  | [] => new_streak
  | d :: rows' =>
    if d =? expected
    then streak_loop rows' (expected - 1) (new_streak + 1)
    else new_streak
  end.

(** The recomputation in the [try] block, after the [DELETE]. *)
Definition recompute (dates : list date) : Z * option date :=
  match dates with
  | [] => (0, None)
  | last_done_date :: rest =>
    (streak_loop rest (last_done_date - 1) 1, Some last_done_date)
  end.

Definition uncomplete_habit_for_today (today : date) (habit_id : Z) (db : DB)
  : ret streak_result * DB :=
  match select_habit habit_id db with
  | None => ((None, Some "Habit not found"%string), db)
  | Some habit =>
    if negb (completion_exists habit_id today db)
    then ((None, Some "Habit not completed today"%string), db)
    else
      let db := delete_completion habit_id today db in
      let dates := select_dates_desc habit_id db in
      let '(new_streak, last_done) := recompute dates in
      let db := update_streak new_streak last_done habit_id db in
      ((Some (StreakResult true new_streak), None), db)
  end.

(** The dictionary [update_habit] returns. *)
Module Updated.
Record t := Mk {
  id : Z;
  name : string;
  streak : Z;
  last_done : option date;
  created_at : string;
  reminder_time : option string
}.
End Updated.

Section update_habit.
(** Python's [str.strip] and SQLite's [LOWER]. *)
Variables (strip lower : string → string).

(** The [if name is not None:] block: an error message, or the
    [updates] list it leaves. *)
Definition name_update (name : option string) (habit_id : Z) (db : DB)
  : string + list assignment :=
  match name with
  | None => inr []
  | Some name =>
    let new_name := strip name in
    if String.eqb new_name EmptyString
    then inl "Habit name cannot be empty"%string
    else if duplicate_name lower new_name habit_id db
    then inl "Habit with this name already exists"%string
    else inr [SetName new_name]
  end.

Definition update_habit (habit_id : Z) (name reminder_time : option string)
    (db : DB) : ret Updated.t * DB :=
  match select_habit habit_id db with
  | None => ((None, Some "Habit not found"%string), db)
  | Some habit =>
    match name_update name habit_id db with
    | inl error => ((None, Some error), db)
    | inr updates =>
      let updates :=
        match reminder_time with
        | Some rt =>
          updates ++ [SetReminderTime (if String.eqb rt EmptyString then None else Some rt)]
        | None => updates
        end in
      match updates with
      | [] => ((None, Some "No fields to update"%string), db)
      | _ :: _ =>
        let db := update_habit_fields updates habit_id db in
        match select_habit habit_id db with
        | Some updated =>
          ((Some (Updated.Mk habit_id (Schema.name updated) (Schema.streak updated)
                    (Schema.last_done updated) (Schema.created_at updated)
                    (Schema.reminder_time updated)), None), db)
        | None =>
          (* [updated['id']] on [None] raises after the commit *)
          ((None, Some "Failed to update habit"%string), db)
        end
      end
    end
  end.
End update_habit.

(** [Some true] is the dictionary [{'success': True}]; on [rowcount == 0]
    the update is rolled back. *)
Definition archive_habit (habit_id : Z) (db : DB) : ret bool * DB :=
  let '(db', rowcount) := update_is_archived 1 habit_id db in
  if rowcount =? 0
  then ((None, Some "Habit not found"%string), db)
  else ((Some true, None), db').

Definition unarchive_habit (habit_id : Z) (db : DB) : ret bool * DB :=
  let '(db', rowcount) := update_is_archived 0 habit_id db in
  if rowcount =? 0
  then ((None, Some "Habit not found"%string), db)
  else ((Some true, None), db').

(** One dictionary of the lists [get_all_habits_with_status] and
    [get_archived_habits] return. *)
Module Status.
Record t := Mk {
  id : Z;
  name : string;
  streak : Z;
  last_done : option date;
  done_today : bool;
  created_at : string;
  reminder_time : option string
}.
End Status.

(** The body of the [for habit in habits] loop of both listings. *)
Definition habit_status (today : date) (db : DB) (kr : Z * habit_row) : Status.t :=
  let done_today := 0 <? count_completion kr.1 today db in
  Status.Mk kr.1 (Schema.name kr.2) (Schema.streak kr.2) (Schema.last_done kr.2)
            done_today (Schema.created_at kr.2) (Schema.reminder_time kr.2).

Definition get_all_habits_with_status (today : date) (db : DB) : list Status.t :=
  habit_status today db <$> select_habits_archived 0 db.

Definition get_archived_habits (today : date) (db : DB) : list Status.t :=
  habit_status today db <$> select_habits_archived 1 db.

(** The dictionary [add_new_habit] returns. *)
Module Added.
Record t := Mk {
  id : Z;
  name : string;
  streak : Z;
  last_done : option date;
  done_today : bool;
  reminder_time : option string
}.
End Added.

(** [now_iso] is [datetime.now().isoformat()], [rowid] what
    [cursor.lastrowid] reads after the insert. *)
Definition add_new_habit (lower : string → string) (now_iso : string) (rowid : Z)
    (habit_name : string) (reminder_time : option string) (db : DB)
  : ret Added.t * DB :=
  if name_taken lower habit_name db
  then ((None, Some "Habit already exists"%string), db)
  else
    let db :=
      match reminder_time with
      | Some rt =>
        if String.eqb rt EmptyString
        then insert_habit rowid habit_name now_iso None db
        else insert_habit rowid habit_name now_iso (Some rt) db
      | None => insert_habit rowid habit_name now_iso None db
      end in
    ((Some (Added.Mk rowid habit_name 0 None false reminder_time), None), db).

End HabitService.

(** ** Call sites

    Both methods are declared with the single parameter [habit_id]
    ([def complete_habit_for_today(habit_id)],
    [def uncomplete_habit_for_today(habit_id)]) and read the day from
    [datetime.now()].  A call that passes a date as well has an argument that
    binds to no parameter: Python raises [TypeError] before the body runs and
    the store is not touched.  [None] stands for that exception. *)

Module Call.

Definition call_complete_habit_for_today (now : date) (habit_id : Z)
    (date_arg : option date) (db : DB)
  : option (HabitService.ret HabitService.streak_result * DB) :=
  match date_arg with
  | None => Some (HabitService.complete_habit_for_today now habit_id db)
  | Some _ => None
  end.

Definition call_uncomplete_habit_for_today (now : date) (habit_id : Z)
    (date_arg : option date) (db : DB)
  : option (HabitService.ret HabitService.streak_result * DB) :=
  match date_arg with
  | None => Some (HabitService.uncomplete_habit_for_today now habit_id db)
  | Some _ => None
  end.

End Call.

(** ** [models.py]: class [HabitManager]

    [complete_habit] is the body of the method's [try] for an id that can
    be bound; its [except] arm is in [Dynamic.complete_habit]. *)

Module HabitManager.
Import Sql.

(** The dataclass [Habit]. *)
Record Habit := MkHabit {
  id : option Z;
  name : string;
  streak : Z;
  last_done : option date;
  created_at : option string;
  reminder_time : option string
}.

Definition from_db_row (habit_id : Z) (row : habit_row) : Habit :=
  MkHabit (Some habit_id) (Schema.name row) (Schema.streak row) (Schema.last_done row)
          (Some (Schema.created_at row)) (Schema.reminder_time row).

Definition _calculate_new_streak (habit : Habit) (completion_date : date) : Z :=
  match last_done habit with
  | None => 1
  | Some last =>
    let days_diff := completion_date - last in
    if days_diff =? 1 then streak habit + 1 else 1
  end.

(** The dictionary [{"new_streak": ..., "completion_date": ...}]. *)
Record completion := Completion { new_streak : Z; completion_date : date }.

Definition complete_habit (today : date) (habit_id : Z) (db : DB)
  : (bool * string * option completion) * DB :=
  match select_habit habit_id db with
  | None => ((false, "Habit not found"%string, None), db)
  | Some habit_row =>
    let habit := from_db_row habit_id habit_row in
    if completion_exists habit_id today db
    then ((false, "Habit already completed today"%string, None), db)
    else
      let new_streak := _calculate_new_streak habit today in
      let db := insert_completion habit_id today db in
      let db := update_streak new_streak (Some today) habit_id db in
      ((true, "Habit completed!"%string, Some (Completion new_streak today)), db)
  end.

(** [Habit.is_done_today]; [today] is the clock's date. *)
Definition is_done_today (habit : Habit) (today : date) : bool :=
  match last_done habit with
  | None => false
  | Some last => last =? today
  end.

(** What [Habit.days_since_last_done] returns: a number of days, or
    [float("inf")] for a habit never done. *)
Inductive days := Days (n : Z) | Inf.

Definition days_since_last_done (habit : Habit) (today : date) : days :=
  match last_done habit with
  | None => Inf
  | Some last_done_date => Days (today - last_done_date)
  end.

(** [Habit.is_streak_active]: [days_since <= 1]. *)
Definition is_streak_active (habit : Habit) (today : date) : bool :=
  match days_since_last_done habit today with
  | Days days_since => days_since <=? 1
  | Inf => false
  end.

(** The whole body is inside [try]: when the first statement cannot bind
    [habit_id] the [except] arm returns [(False, str(e))]. *)
Definition delete_habit (habit_id : Z) (db : DB) : (bool * string) * DB :=
  if Runtime.bindable habit_id then
    match select_habit habit_id db with
    | None => ((false, "Habit not found"%string), db)
    | Some _ =>
      let db := delete_completions_of habit_id db in
      let db := (delete_habit_row habit_id db).1 in
      ((true, "Habit deleted successfully"%string), db)
    end
  else ((false, Runtime.too_large), db).

(** The streak part of the dictionary [get_habit_statistics] builds:
    ["habits_by_streak"], ["total_active_streaks"], ["longest_streak"]. *)
Record streak_stats := StreakStats {
  excellent : Z;
  good : Z;
  starting : Z;
  inactive : Z;
  total_active_streaks : Z;
  longest_streak : Z
}.

(** The body of the [for row in streak_data] loop. *)
Definition count_streak (stats : streak_stats) (streak : Z) : streak_stats :=
  let stats :=
    if 7 <=? streak then
      StreakStats (excellent stats + 1) (good stats) (starting stats) (inactive stats)
                  (total_active_streaks stats) (longest_streak stats)
    else if 3 <=? streak then
      StreakStats (excellent stats) (good stats + 1) (starting stats) (inactive stats)
                  (total_active_streaks stats) (longest_streak stats)
    else if 1 <=? streak then
      StreakStats (excellent stats) (good stats) (starting stats + 1) (inactive stats)
                  (total_active_streaks stats) (longest_streak stats)
    else
      StreakStats (excellent stats) (good stats) (starting stats) (inactive stats + 1)
                  (total_active_streaks stats) (longest_streak stats) in
  let stats :=
    if 0 <? streak then
      StreakStats (excellent stats) (good stats) (starting stats) (inactive stats)
                  (total_active_streaks stats + 1) (longest_streak stats)
    else stats in
  if longest_streak stats <? streak then
    StreakStats (excellent stats) (good stats) (starting stats) (inactive stats)
                (total_active_streaks stats) streak
  else stats.

(** The streak statistics of [get_habit_statistics], from the rows of
    [SELECT streak FROM habits]. *)
Definition streak_statistics (db : DB) : streak_stats :=
  foldl count_streak (StreakStats 0 0 0 0 0 0) (select_streaks db).

End HabitManager.

(** ** The methods on any argument

    Each definition is the method of the same name, entered with whatever
    [int] or JSON field the caller passes.  An exception that leaves a method
    leaves before [commit], so the store is the one the call found. *)

Module Dynamic.
Import Sql Runtime.

(** [HabitService.complete_habit_for_today] has no [try]: the first
    [SELECT] binds [habit_id] and the final [UPDATE] binds [new_streak]. *)
Definition complete_habit_for_today (today : date) (habit_id : Z) (db : DB)
  : outcome (HabitService.ret HabitService.streak_result) * DB :=
  if bindable habit_id then
    match HabitService.complete_habit_for_today today habit_id db with
    | ((Some result, error), db') =>
      if bindable (HabitService.new_streak result)
      then (Return (Some result, error), db')
      else (Raise OverflowError, db)
    | ((None, error), db') => (Return (None, error), db')
    end
  else (Raise OverflowError, db).

(** [HabitService.uncomplete_habit_for_today] opens its [try] after the two
    [SELECT]s, and the first of them binds [habit_id].  Inside the [try]
    the only [int] bound besides [habit_id] is [new_streak], a count of
    rows of the table. *)
Definition uncomplete_habit_for_today (today : date) (habit_id : Z) (db : DB)
  : outcome (HabitService.ret HabitService.streak_result) * DB :=
  if bindable habit_id then
    let '(r, db') := HabitService.uncomplete_habit_for_today today habit_id db in
    (Return r, db')
  else (Raise OverflowError, db).

(** [HabitService.update_habit] runs inside one [try] whose [except] arm
    rolls back and returns ["Failed to update habit"].  [name] is
    [data.get('name')]; [reminder_time] is text when present. *)
Definition update_habit (strip lower : string → string) (habit_id : Z)
    (name : option json) (reminder_time : option string) (db : DB)
  : HabitService.ret HabitService.Updated.t * DB :=
  if bindable habit_id then
    match select_habit habit_id db with
    | None => ((None, Some "Habit not found"%string), db)
    | Some _ =>
      match name with
      | None => HabitService.update_habit strip lower habit_id None reminder_time db
      | Some (JString name) =>
        HabitService.update_habit strip lower habit_id (Some name) reminder_time db
      | Some JOther =>
        (* [name.strip()] raises [AttributeError] *)
        ((None, Some "Failed to update habit"%string), db)
      end
    end
  else ((None, Some "Failed to update habit"%string), db).

(** [HabitService.archive_habit] and [unarchive_habit]: the [UPDATE] is
    inside the [try]. *)
Definition archive_habit (habit_id : Z) (db : DB) : HabitService.ret bool * DB :=
  if bindable habit_id then HabitService.archive_habit habit_id db
  else ((None, Some "Failed to archive habit"%string), db).

Definition unarchive_habit (habit_id : Z) (db : DB) : HabitService.ret bool * DB :=
  if bindable habit_id then HabitService.unarchive_habit habit_id db
  else ((None, Some "Failed to unarchive habit"%string), db).

(** [HabitManager.complete_habit]: the same statements as the service
    method, inside a [try] whose [except] arm rolls back and returns
    [(False, str(e), None)]. *)
Definition complete_habit (today : date) (habit_id : Z) (db : DB)
  : (bool * string * option HabitManager.completion) * DB :=
  if bindable habit_id then
    match HabitManager.complete_habit today habit_id db with
    | ((ok, message, Some data), db') =>
      if bindable (HabitManager.new_streak data)
      then ((ok, message, Some data), db')
      else ((false, too_large, None), db)
    | ((ok, message, None), db') => ((ok, message, None), db')
    end
  else ((false, too_large, None), db).

End Dynamic.

(** ** The streak as the specification words it

    These definitions follow the prose of the specification, not the code:
    the streak is the count of consecutive calendar days ending at the most
    recent completion; it is found by walking backward day by day from that
    date and stopping at the first missing day or when the set is used up. *)

Module StreakSpec.

(** The most recent date of a set of dates, if it has one. *)
Definition max_step (d : date) (acc : option date) : option date :=
  Some (match acc with Some m => Z.max d m | None => d end).

Definition latest (D : gset date) : option date :=
  foldr max_step None (elements D).

(** Walk backward from [d]; [fuel] bounds the walk by the size of the set. *)
Fixpoint walk_back (D : gset date) (d : date) (fuel : nat) : Z :=
  match fuel with
  | O => 0
  | S fuel' => if decide (d ∈ D) then 1 + walk_back D (d - 1) fuel' else 0
  end.

Definition derived_streak (D : gset date) : Z :=
  match latest D with
  | None => 0
  | Some m => walk_back D m (size D)
  end.

(** The cached columns of habit [h] agree with its completion rows. *)
Definition consistent (h : Z) (db : DB) : Prop :=
  ∃ row, habits db !! h = Some row
       ∧ streak row = derived_streak (Sql.completion_dates h db)
       ∧ last_done row = latest (Sql.completion_dates h db).

End StreakSpec.

(** ** Histories of the two operations *)

Inductive action :=
  | Complete (habit_id : Z)
  | Uncomplete (habit_id : Z).

(** One request, served on the day [today]; the store it leaves behind. *)
Definition step (today : date) (a : action) (db : DB) : DB :=
  match a with
  | Complete habit_id => (HabitService.complete_habit_for_today today habit_id db).2
  | Uncomplete habit_id => (HabitService.uncomplete_habit_for_today today habit_id db).2
  end.

(** A history: requests with the clock reading at which each is served. *)
Definition run (ops : list (date * action)) (db : DB) : DB :=
  foldl (λ db op, step op.1 op.2 db) db ops.

(** Habit [h] as [add_new_habit] creates it: streak 0, no [last_done], and
    no completion rows. *)
Definition fresh (h : Z) (db : DB) : Prop :=
  ∃ row, habits db !! h = Some row
       ∧ streak row = 0 ∧ last_done row = None
       ∧ Sql.completion_dates h db = ∅.

(** Complete today, then undo it at once. *)
Definition round_trip (today : date) (h : Z) (db : DB) : DB :=
  (HabitService.uncomplete_habit_for_today today h
     (HabitService.complete_habit_for_today today h db).2).2.

(** The round-trip property, for one habit without a completion today. *)
Definition round_trip_restores (today : date) (h : Z) (db : DB) : Prop :=
  ∀ row, habits db !! h = Some row →
         (h, today) ∉ habit_completions db →
         ∃ row', habits (round_trip today h db) !! h = Some row'
               ∧ streak row' = streak row
               ∧ last_done row' = last_done row.

(** ** Notions used to state the properties *)

Section notions.
Import Sql HabitService StreakSpec.

(** The streak [complete_habit_for_today] writes for a row and a clock. *)
Definition next_streak (row : habit_row) (today : date) : Z :=
  match last_done row with
  | Some last => if today - last =? 1 then streak row + 1 else 1
  | None => 1
  end.

(** Rows of [habits] after the field updates. *)
Definition same_but_name_reminder (r r' : habit_row) : Prop :=
  streak r' = streak r ∧ last_done r' = last_done r
  ∧ created_at r' = created_at r ∧ is_archived r' = is_archived r.

Definition same_but_archived (r r' : habit_row) : Prop :=
  name r' = name r ∧ streak r' = streak r ∧ last_done r' = last_done r
  ∧ created_at r' = created_at r ∧ reminder_time r' = reminder_time r.

(** A table in which only row [k] may differ, and only as [R] allows. *)
Definition rows_changed (R : relation habit_row) (k : Z) (db db' : DB) : Prop :=
  habit_completions db' = habit_completions db
  ∧ (∀ i, i ≠ k → habits db' !! i = habits db !! i)
  ∧ option_Forall2 R (habits db !! k) (habits db' !! k).

(** The invariant carried along a history: the cache of [h] is right and
    no completion row of [h] is dated after the clock. *)
Definition cache_ok (h : Z) (t : date) (db : DB) : Prop :=
  consistent h db ∧ ∀ d, d ∈ completion_dates h db → d ≤ t.

End notions.

(** ** Concrete stores used to run the operations *)

(** One habit as [add_new_habit] leaves it: streak 0, never done. *)
Definition db_fresh : DB :=
  MkDB {[ 1 := HabitRow "Drink Water" 0 None "2024-01-01T08:00:00" None 0 ]} ∅.

(** The first row of [create_sample_data], ["Drink Water", 5, today], read on
    day 10: a cached streak with no completion rows behind it. *)
Definition db_sample : DB :=
  MkDB {[ 1 := HabitRow "Drink Water" 5 (Some 10) "2024-01-01 08:00:00" None 0 ]} ∅.

(** Completions on the given days, in order, for habit 1 of [db_fresh]. *)
Definition complete_on (days : list date) : DB :=
  foldl (λ db d, (HabitService.complete_habit_for_today d 1 db).2) db_fresh days.

(** The cached columns of a habit, as a pair. *)
Definition cached (h : Z) (db : DB) : option (Z * option date) :=
  (λ r, (streak r, last_done r)) <$> habits db !! h.

(** Undo the completions of the given days, each on its own day. *)
Definition uncomplete_on (days : list date) (db : DB) : DB :=
  foldl (λ db d, (HabitService.uncomplete_habit_for_today d 1 db).2) db days.

(** [str.strip] and [LOWER] on ASCII text, to run [update_habit]. *)
Module AsciiText.

Definition is_space (c : ascii) : bool :=
  let n := nat_of_ascii c in
  ((9 <=? n) && (n <=? 13) || (28 <=? n) && (n <=? 32))%nat.

Fixpoint lstrip (s : string) : string :=
  match s with
  | EmptyString => EmptyString
  | String c s' => if is_space c then lstrip s' else s
  end.

Fixpoint rstrip (s : string) : string :=
  match s with
  | EmptyString => EmptyString
  | String c s' =>
    match rstrip s' with
    | EmptyString => if is_space c then EmptyString else String c EmptyString
    | r => String c r
    end
  end.

Definition strip (s : string) : string := rstrip (lstrip s).

Definition lower_char (c : ascii) : ascii :=
  let n := nat_of_ascii c in
  if ((65 <=? n) && (n <=? 90))%nat then ascii_of_nat (n + 32) else c.

Fixpoint lower (s : string) : string :=
  match s with
  | EmptyString => EmptyString
  | String c s' => String (lower_char c) (lower s')
  end.

End AsciiText.

(** A habit as an import of foreign JSON can leave it: the largest streak
    SQLite stores, last done on day 9, no completion rows. *)
Definition db_imported : DB :=
  MkDB {[ 1 := HabitRow "Drink Water" (2 ^ 63 - 1) (Some 9) "2024-01-01T08:00:00" None 0 ]} ∅.

(** Two habits, the second archived. *)
Definition db_two : DB :=
  MkDB {[ 1 := HabitRow "Drink Water" 3 (Some 9) "2024-01-01T08:00:00" None 0;
          2 := HabitRow "Read Book" 0 None "2024-01-02T08:00:00" (Some "07:30") 1 ]}
       {[ (1, 7); (1, 8); (1, 9) ]}.

(** ** [app/blueprints/habits.py]: the habit routes

    A route returns the JSON body and the HTTP status ([200] when the
    handler returns [jsonify(...)] alone).  [motivation] is the text the
    optional AI collaborator produced, empty when it is absent or failed.
    An exception that leaves a handler is answered by the application with
    status 500: the body [Unhandled]. *)

Module Routes.
Import Sql HabitService Runtime.

Inductive body :=
  | ErrorBody (error : string)
  | CompletedBody (result : streak_result) (motivation : string)
  | StreakBody (result : option streak_result)
  | AddedBody (new_habit : Added.t) (motivation : string)
  | UpdatedBody (updated : option Updated.t)
  | SuccessBody (result : option bool)
  | Unhandled.

(** Truth value of [error] in [if error:]. *)
Definition truthy (error : option string) : bool :=
  match error with
  | Some e => negb (String.eqb e EmptyString)
  | None => false
  end.

(** [needle in hay] on strings. *)
Definition contains (needle hay : string) : bool :=
  match String.index 0 needle hay with Some _ => true | None => false end.

(** [404 if "not found" in error.lower() else 400]. *)
Definition status_code (error : string) : Z :=
  if contains "not found" (AsciiText.lower error) then 404 else 400.

(** [POST /api/habits/<habit_id>/complete]. *)
Definition complete_habit (today : date) (motivation : string) (habit_id : Z) (db : DB)
  : (body * Z) * DB :=
  match Dynamic.complete_habit_for_today today habit_id db with
  | (Raise _, db) => ((Unhandled, 500), db)
  | (Return (result, error), db) =>
    if truthy error
    then ((ErrorBody (default EmptyString error), status_code (default EmptyString error)), db)
    else
      match result with
      | Some result => ((CompletedBody result motivation, 200), db)
      | None => ((Unhandled, 500), db)   (* [dict(None)] raises *)
      end
  end.

(** [POST /api/habits/<habit_id>/uncomplete]. *)
Definition uncomplete_habit (today : date) (habit_id : Z) (db : DB) : (body * Z) * DB :=
  match Dynamic.uncomplete_habit_for_today today habit_id db with
  | (Raise _, db) => ((Unhandled, 500), db)
  | (Return (result, error), db) =>
    if truthy error
    then ((ErrorBody (default EmptyString error), status_code (default EmptyString error)), db)
    else ((StreakBody result, 200), db)
  end.

(** [POST /api/habits]: [name] is [data.get("name", "")] and
    [reminder_time] is [data.get("reminder_time")]. *)
Definition create_habit (strip lower : string → string) (now_iso : string) (rowid : Z)
    (motivation : string) (name : string) (reminder_time : option string) (db : DB)
  : (body * Z) * DB :=
  let habit_name := strip name in
  if String.eqb habit_name EmptyString
  then ((ErrorBody "Habit name is required", 400), db)
  else
    let '((new_habit, error), db) :=
      add_new_habit lower now_iso rowid habit_name reminder_time db in
    if truthy error
    then ((ErrorBody (default EmptyString error), 400), db)
    else
      match new_habit with
      | Some new_habit => ((AddedBody new_habit motivation, 200), db)
      | None => ((Unhandled, 500), db)   (* [dict(None)] raises *)
      end.

(** [PATCH /api/habits/<habit_id>]: [name] and [reminder_time] are what
    the handler reads from the JSON object of the request. *)
Definition update_habit (strip lower : string → string) (habit_id : Z)
    (name : option json) (reminder_time : option string) (db : DB) : (body * Z) * DB :=
  let '((updated, error), db) :=
    Dynamic.update_habit strip lower habit_id name reminder_time db in
  if truthy error
  then
    let error := default EmptyString error in
    let code :=
      if String.prefix "Habit name" error || String.prefix "Habit with this" error
         || String.prefix "No fields" error
      then 400 else 404 in
    ((ErrorBody error, code), db)
  else ((UpdatedBody updated, 200), db).

(** [POST /api/habits/<habit_id>/archive]. *)
Definition archive_habit (habit_id : Z) (db : DB) : (body * Z) * DB :=
  let '((result, error), db) := Dynamic.archive_habit habit_id db in
  if truthy error
  then ((ErrorBody (default EmptyString error), 404), db)
  else ((SuccessBody result, 200), db).

(** [POST /api/habits/<habit_id>/unarchive]. *)
Definition unarchive_habit (habit_id : Z) (db : DB) : (body * Z) * DB :=
  let '((result, error), db) := Dynamic.unarchive_habit habit_id db in
  if truthy error
  then ((ErrorBody (default EmptyString error), 404), db)
  else ((SuccessBody result, 200), db).

(** [DELETE /api/habits/<habit_id>]: on [rowcount == 0] both deletions are
    rolled back; when the first [DELETE] cannot bind [habit_id] the
    [except] arm answers. *)
Definition delete_habit (habit_id : Z) (db : DB) : (body * Z) * DB :=
  if bindable habit_id then
    let db1 := delete_completions_of habit_id db in
    let '(db2, rowcount) := delete_habit_row habit_id db1 in
    if rowcount =? 0
    then ((ErrorBody "Habit not found", 404), db)
    else ((SuccessBody (Some true), 200), db2)
  else ((ErrorBody "Failed to delete habit", 500), db).

End Routes.

(** ** The table [tasks] and its services

    The task functions touch no other table, so their state is the table
    [tasks] alone: a finite map from [id] to the remaining columns. *)

Module TaskSchema.
Record task_row := TaskRow {
  name : string;
  done : Z;
  date : Z;
  created_at : string;
  reminder_time : option string
}.
End TaskSchema.

Module TaskSql.
Import TaskSchema.

Definition set_done (v : Z) (r : task_row) : task_row :=
  TaskRow (name r) v (date r) (created_at r) (reminder_time r).

(** [UPDATE tasks SET done = ? WHERE id = ?], with the cursor's [rowcount],
    once [task_id] is bound. *)
Definition update_done (v : Z) (task_id : Z) (tasks : gmap Z task_row)
  : gmap Z task_row * Z :=
  (alter (set_done v) task_id tasks,
   match tasks !! task_id with Some _ => 1 | None => 0 end).

End TaskSql.

(** [services.py]: class [TaskService], for a [task_id] that can be bound. *)
Module TaskService.
Import TaskSchema TaskSql.

Definition complete_task_by_id (task_id : Z) (tasks : gmap Z task_row)
  : (bool * option string) * gmap Z task_row :=
  let '(tasks', rowcount) := update_done 1 task_id tasks in
  if rowcount =? 0
  then ((false, Some "Task not found"%string), tasks)
  else ((true, None), tasks').

Definition uncomplete_task_by_id (task_id : Z) (tasks : gmap Z task_row)
  : (bool * option string) * gmap Z task_row :=
  let '(tasks', rowcount) := update_done 0 task_id tasks in
  if rowcount =? 0
  then ((false, Some "Task not found"%string), tasks)
  else ((true, None), tasks').

End TaskService.

(** [TaskService] on any [task_id]: neither method has a [try], and the
    [UPDATE] binds [task_id]. *)
Module TaskDynamic.
Import TaskSchema Runtime.

Definition complete_task_by_id (task_id : Z) (tasks : gmap Z task_row)
  : outcome (bool * option string) * gmap Z task_row :=
  if bindable task_id then
    let '(r, tasks') := TaskService.complete_task_by_id task_id tasks in
    (Return r, tasks')
  else (Raise OverflowError, tasks).

Definition uncomplete_task_by_id (task_id : Z) (tasks : gmap Z task_row)
  : outcome (bool * option string) * gmap Z task_row :=
  if bindable task_id then
    let '(r, tasks') := TaskService.uncomplete_task_by_id task_id tasks in
    (Return r, tasks')
  else (Raise OverflowError, tasks).

End TaskDynamic.

(** [models.py]: class [TaskManager]. *)
Module TaskManager.
Import TaskSchema TaskSql.

Definition toggle_task_completion (task_id : Z) (tasks : gmap Z task_row)
  : (bool * string * option bool) * gmap Z task_row :=
  match tasks !! task_id with
  | None => ((false, "Task not found"%string, None), tasks)
  | Some row =>
    let current_status := negb (done row =? 0) in
    let new_status := negb current_status in
    let tasks := (update_done (if new_status then 1 else 0) task_id tasks).1 in
    let status_text := if new_status then "completed"%string else "marked as pending"%string in
    ((true, ("Task " ++ status_text)%string, Some new_status), tasks)
  end.

End TaskManager.

(** Two tasks of day 10, one pending and one done. *)
Definition tasks_two : gmap Z TaskSchema.task_row :=
  {[ 1 := TaskSchema.TaskRow "Buy groceries" 0 10 "2024-01-10T08:00:00" None;
     2 := TaskSchema.TaskRow "Call dentist for appointment" 1 10 "2024-01-10T09:00:00" None ]}.

(** ** Requests to the habit routes, and what a store may be expected to satisfy *)

(** One request, with what the handler reads from its surroundings: the
    clock ([today], [now_iso]) and the key of an inserted row ([rowid]). *)
Inductive request :=
  | PostHabit (now_iso : string) (rowid : Z) (name : string) (reminder_time : option string)
  | PostComplete (today : date) (habit_id : Z)
  | PostUncomplete (today : date) (habit_id : Z)
  | PatchHabit (habit_id : Z) (name : option Runtime.json) (reminder_time : option string)
  | PostArchive (habit_id : Z)
  | PostUnarchive (habit_id : Z)
  | DeleteHabit (habit_id : Z).

(** The store a request leaves behind. *)
Definition serve (strip lower : string → string) (db : DB) (r : request) : DB :=
  match r with
  | PostHabit now_iso rowid name reminder_time =>
    (Routes.create_habit strip lower now_iso rowid EmptyString name reminder_time db).2
  | PostComplete today habit_id => (Routes.complete_habit today EmptyString habit_id db).2
  | PostUncomplete today habit_id => (Routes.uncomplete_habit today habit_id db).2
  | PatchHabit habit_id name reminder_time =>
    (Routes.update_habit strip lower habit_id name reminder_time db).2
  | PostArchive habit_id => (Routes.archive_habit habit_id db).2
  | PostUnarchive habit_id => (Routes.unarchive_habit habit_id db).2
  | DeleteHabit habit_id => (Routes.delete_habit habit_id db).2
  end.

(** Every completion row belongs to a habit of the table. *)
Definition referential (db : DB) : Prop :=
  ∀ h d, (h, d) ∈ habit_completions db → is_Some (habits db !! h).

(** No two habits have the same name up to [lower]. *)
Definition names_unique (lower : string → string) (db : DB) : Prop :=
  ∀ i j ri rj, habits db !! i = Some ri → habits db !! j = Some rj →
               lower (name ri) = lower (name rj) → i = j.

(** No habit has the empty name. *)
Definition names_nonempty (db : DB) : Prop :=
  ∀ i r, habits db !! i = Some r → name r ≠ EmptyString.

(** The archive flag of every habit is 0 or 1. *)
Definition flags_ok (db : DB) : Prop :=
  ∀ i r, habits db !! i = Some r → is_archived r = 0 ∨ is_archived r = 1.

(** ** Facts about the tables *)

Section tables.
Import Sql.

Lemma elem_of_completion_dates h d db :
  d ∈ completion_dates h db ↔ (h, d) ∈ habit_completions db.
Proof.
  unfold completion_dates. rewrite elem_of_map. split.
  - intros [[h' d'] [-> Hin]]. apply elem_of_filter in Hin as [Hh Hin].
    simpl in *. by subst.
  - intros Hin. exists (h, d). split; [done|]. by apply elem_of_filter.
Qed.

Lemma completion_exists_true h d db :
  completion_exists h d db = true ↔ (h, d) ∈ habit_completions db.
Proof. unfold completion_exists. by rewrite bool_decide_eq_true. Qed.

Lemma completion_exists_false h d db :
  completion_exists h d db = false ↔ (h, d) ∉ habit_completions db.
Proof. unfold completion_exists. by rewrite bool_decide_eq_false. Qed.

Lemma completion_dates_update s l h h' db :
  completion_dates h' (update_streak s l h db) = completion_dates h' db.
Proof. reflexivity. Qed.

Lemma completion_dates_insert h d db :
  completion_dates h (insert_completion h d db) = {[ d ]} ∪ completion_dates h db.
Proof.
  apply set_eq. intros x. rewrite elem_of_union, elem_of_singleton,
    !elem_of_completion_dates. unfold insert_completion. simpl. set_solver.
Qed.

Lemma completion_dates_insert_ne h h' d db :
  h ≠ h' → completion_dates h' (insert_completion h d db) = completion_dates h' db.
Proof.
  intros Hne. apply set_eq. intros x. rewrite !elem_of_completion_dates.
  unfold insert_completion. simpl. set_solver.
Qed.

Lemma completion_dates_delete h d db :
  completion_dates h (delete_completion h d db) = completion_dates h db ∖ {[ d ]}.
Proof.
  apply set_eq. intros x. rewrite elem_of_difference, elem_of_singleton,
    !elem_of_completion_dates. unfold delete_completion. simpl. set_solver.
Qed.

Lemma completion_dates_delete_ne h h' d db :
  h ≠ h' → completion_dates h' (delete_completion h d db) = completion_dates h' db.
Proof.
  intros Hne. apply set_eq. intros x. rewrite !elem_of_completion_dates.
  unfold delete_completion. simpl. set_solver.
Qed.

#[local] Instance Zge_total : Total Z.ge.
Proof. intros x y. lia. Qed.
#[local] Instance Zge_trans : Transitive Z.ge.
Proof. intros x y z. lia. Qed.

Lemma elem_of_select_dates_desc h db d :
  d ∈ select_dates_desc h db ↔ d ∈ completion_dates h db.
Proof.
  unfold select_dates_desc. by rewrite merge_sort_Permutation, elem_of_elements.
Qed.

Lemma NoDup_select_dates_desc h db : NoDup (select_dates_desc h db).
Proof.
  unfold select_dates_desc. rewrite merge_sort_Permutation. apply NoDup_elements.
Qed.

Lemma length_select_dates_desc h db :
  length (select_dates_desc h db) = size (completion_dates h db).
Proof. unfold select_dates_desc. by rewrite merge_sort_Permutation. Qed.

(** Distinct dates in descending order are strictly descending. *)
Lemma StronglySorted_ge_NoDup_gt (l : list Z) :
  StronglySorted Z.ge l → NoDup l → StronglySorted Z.gt l.
Proof.
  induction 1 as [|x l Hl IH Hall]; intros Hnd; [constructor|].
  apply NoDup_cons in Hnd as [Hx Hnd]. constructor; [auto|].
  rewrite Forall_forall in *. intros y Hy.
  assert (x ≠ y) by (intros ->; done). specialize (Hall y Hy). lia.
Qed.

Lemma select_dates_desc_sorted h db :
  StronglySorted Z.gt (select_dates_desc h db).
Proof.
  apply StronglySorted_ge_NoDup_gt; [|apply NoDup_select_dates_desc].
  apply StronglySorted_merge_sort; apply _.
Qed.

End tables.

(** ** Facts about the specification's streak *)

Section streak_spec.
Import StreakSpec.

Lemma foldr_max_Some (l : list Z) m :
  foldr max_step None l = Some m → m ∈ l ∧ ∀ x, x ∈ l → x ≤ m.
Proof.
  revert m. induction l as [|a l IH]; intros m; simpl; [done|].
  unfold max_step at 1. destruct (foldr max_step None l) as [m'|] eqn:E.
  - destruct (IH m' eq_refl) as [Hin Hub]. intros [= <-]. split.
    + destruct (Z.max_spec a m') as [[_ ->]|[_ ->]];
        rewrite elem_of_cons; auto.
    + intros x [->|Hx]%elem_of_cons; [lia|]. specialize (Hub x Hx). lia.
  - intros [= <-]. destruct l as [|b l]; [|done]. split.
    + rewrite elem_of_cons; auto.
    + intros x [->|Hx]%elem_of_cons; [lia|]. by apply elem_of_nil in Hx.
Qed.

Lemma foldr_max_None (l : list Z) : foldr max_step None l = None → l = [].
Proof. by destruct l. Qed.

Lemma latest_Some D m : latest D = Some m ↔ m ∈ D ∧ ∀ d, d ∈ D → d ≤ m.
Proof.
  unfold latest. split.
  - intros H%foldr_max_Some. setoid_rewrite elem_of_elements in H. done.
  - intros [Hin Hub].
    destruct (foldr max_step None (elements D)) as [m'|] eqn:E.
    + apply foldr_max_Some in E as [Hin' Hub'].
      setoid_rewrite elem_of_elements in Hub'. apply elem_of_elements in Hin'.
      f_equal. specialize (Hub _ Hin'). specialize (Hub' _ Hin). lia.
    + apply foldr_max_None in E. apply elements_empty_inv in E.
      apply leibniz_equiv in E. subst. by apply not_elem_of_empty in Hin.
Qed.

Lemma latest_None D : latest D = None ↔ D = ∅.
Proof.
  unfold latest. split.
  - intros E%foldr_max_None. apply elements_empty_inv in E.
    by apply leibniz_equiv in E.
  - intros ->. by rewrite elements_empty.
Qed.

(** The walk only looks at dates on or before its starting day. *)
Lemma walk_back_ext D D' d n :
  (∀ x, x ≤ d → x ∈ D ↔ x ∈ D') → walk_back D d n = walk_back D' d n.
Proof.
  revert d. induction n as [|n IH]; intros d Hagree; simpl; [done|].
  destruct (decide (d ∈ D)) as [Hd|Hd], (decide (d ∈ D')) as [Hd'|Hd'].
  - f_equal. apply IH. intros x Hx. apply Hagree. lia.
  - exfalso. apply Hd'. apply Hagree; [lia|done].
  - exfalso. apply Hd. apply Hagree; [lia|done].
  - done.
Qed.

Lemma walk_back_notin D d n : d ∉ D → walk_back D d n = 0.
Proof. intros Hd. destruct n; simpl; [done|]. by rewrite decide_False. Qed.

Lemma walk_back_nonneg D d n : 0 ≤ walk_back D d n.
Proof.
  revert d. induction n as [|n IH]; intros d; simpl; [lia|].
  case_decide; [|lia]. specialize (IH (d - 1)). lia.
Qed.

(** What the walk returns is a run of days that are all present ... *)
Lemma walk_back_run D d n i :
  0 ≤ i < walk_back D d n → d - i ∈ D.
Proof.
  revert d i. induction n as [|n IH]; intros d i; simpl; [lia|].
  case_decide as Hd; [|lia]. intros Hi.
  destruct (decide (i = 0)) as [->|Hne].
  - by replace (d - 0) with d by lia.
  - replace (d - i) with (d - 1 - (i - 1)) by lia. apply IH. lia.
Qed.

(** ... and it is bounded by its fuel. *)
Lemma walk_back_le_fuel D d n : walk_back D d n ≤ Z.of_nat n.
Proof.
  revert d. induction n as [|n IH]; intros d; simpl walk_back; [lia|].
  case_decide; [|lia]. specialize (IH (d - 1)). lia.
Qed.

(** If the walk stops before its fuel is spent, it stopped at a missing day. *)
Lemma walk_back_stop D d n :
  walk_back D d n < Z.of_nat n → d - walk_back D d n ∉ D.
Proof.
  revert d. induction n as [|n IH]; intros d; simpl walk_back; [lia|].
  case_decide as Hd.
  - intros Hlt. replace (d - (1 + walk_back D (d - 1) n))
      with (d - 1 - walk_back D (d - 1) n) by lia. apply IH. lia.
  - intros _. by replace (d - 0) with d by lia.
Qed.

(** With the size of the set as fuel the walk always ends at a missing day:
    a run that used up the fuel would be the whole set. *)
Lemma walk_back_full D d : d - walk_back D d (size D) ∉ D.
Proof.
  pose proof (walk_back_le_fuel D d (size D)) as Hle.
  pose proof (walk_back_nonneg D d (size D)) as Hge.
  destruct (decide (walk_back D d (size D) < Z.of_nat (size D))) as [Hlt|Hnlt];
    [by apply walk_back_stop|].
  set (k := walk_back D d (size D)) in *.
  assert (Hk : k = Z.of_nat (size D)) by lia.
  set (R := list_to_set (seqZ (d - k + 1) k) : gset Z).
  assert (Hsub : R ⊆ D).
  { intros x Hx. apply elem_of_list_to_set, elem_of_seqZ in Hx.
    replace x with (d - (d - x)) by lia. apply (walk_back_run D d (size D)).
    fold k. lia. }
  assert (Hsize : size R = size D).
  { unfold R. rewrite size_list_to_set by apply NoDup_seqZ.
    rewrite length_seqZ. lia. }
  assert (HRD : R = D) by (apply set_subseteq_size_eq; [done|lia]).
  intros Hin. rewrite <- HRD in Hin.
  apply elem_of_list_to_set, elem_of_seqZ in Hin. lia.
Qed.

(** The specification's streak, characterised without the walk: the run of
    present days ending at the latest date, which the day before the run
    breaks. *)
Lemma derived_streak_run D m :
  latest D = Some m →
  1 ≤ derived_streak D
  ∧ (∀ i, 0 ≤ i < derived_streak D → m - i ∈ D)
  ∧ m - derived_streak D ∉ D.
Proof.
  intros Hm. unfold derived_streak. rewrite Hm.
  apply latest_Some in Hm as [Hin _]. split; [|split].
  - destruct (size D) as [|n] eqn:Hs.
    + apply size_empty_inv, leibniz_equiv in Hs. subst.
      by apply not_elem_of_empty in Hin.
    + simpl. rewrite decide_True by done.
      pose proof (walk_back_nonneg D (m - 1) n). lia.
  - intros i. apply walk_back_run.
  - apply walk_back_full.
Qed.

Lemma derived_streak_empty : derived_streak ∅ = 0.
Proof. reflexivity. Qed.

End streak_spec.

(** ** The recomputation of [uncomplete_habit_for_today] computes the
       specification's streak *)

Section recompute_refines.
Import Sql HabitService StreakSpec.

Lemma streak_loop_walk_back D (l : list Z) e acc n :
  StronglySorted Z.gt l →
  (∀ x, x ∈ l → x ≤ e) →
  (∀ x, x ≤ e → x ∈ D ↔ x ∈ l) →
  (length l ≤ n)%nat →
  streak_loop l e acc = acc + walk_back D e n.
Proof.
  intros Hs. revert e acc n.
  induction Hs as [|d l Hs IH Hall]; intros e acc n Hub Hagree Hn.
  - simpl. rewrite walk_back_notin; [lia|].
    intros Hin. apply Hagree in Hin; [|lia]. by apply elem_of_nil in Hin.
  - rewrite Forall_forall in Hall. simpl streak_loop.
    destruct (Z.eqb_spec d e) as [->|Hne].
    + destruct n as [|n]; [simpl in Hn; lia|]. simpl walk_back.
      rewrite decide_True by (apply Hagree; [lia|rewrite elem_of_cons; auto]).
      rewrite (IH (e - 1) (acc + 1) n).
      * lia.
      * intros x Hx. specialize (Hall x Hx). lia.
      * intros x Hx. rewrite (Hagree x) by lia. rewrite elem_of_cons.
        split; [intros [->|?]; [lia|done] | auto].
      * simpl in Hn. lia.
    + rewrite walk_back_notin; [lia|].
      intros Hin. apply Hagree in Hin; [|lia].
      apply elem_of_cons in Hin as [->|Hin]; [done|].
      specialize (Hall e Hin). specialize (Hub d). rewrite elem_of_cons in Hub.
      specialize (Hub (or_introl eq_refl)). lia.
Qed.

(** A strictly descending list starts with its greatest element. *)
Lemma head_sorted_latest D (m : Z) l :
  StronglySorted Z.gt (m :: l) → (∀ x, x ∈ m :: l ↔ x ∈ D) → latest D = Some m.
Proof.
  intros Hs Hel. apply StronglySorted_inv in Hs as [_ Hall].
  rewrite Forall_forall in Hall. apply latest_Some. split.
  - apply Hel. rewrite elem_of_cons; auto.
  - intros d Hd. apply Hel, elem_of_cons in Hd as [->|Hd]; [lia|].
    specialize (Hall d Hd). lia.
Qed.

Lemma recompute_select_dates_desc h db :
  recompute (select_dates_desc h db)
  = (derived_streak (completion_dates h db), latest (completion_dates h db)).
Proof.
  pose proof (select_dates_desc_sorted h db) as Hs.
  pose proof (elem_of_select_dates_desc h db) as Hel.
  pose proof (length_select_dates_desc h db) as Hlen.
  set (D := completion_dates h db) in *.
  destruct (select_dates_desc h db) as [|m l]; simpl recompute.
  - assert (D = ∅) as ->.
    { apply set_eq. intros x. rewrite <- Hel.
      split; [by intros ?%elem_of_nil | by intros ?%not_elem_of_empty]. }
    done.
  - pose proof (head_sorted_latest D m l Hs (λ x, Hel x)) as Hm.
    unfold derived_streak. rewrite Hm. f_equal.
    simpl in Hlen. rewrite <- Hlen. simpl walk_back.
    rewrite decide_True by (apply Hel; rewrite elem_of_cons; auto).
    apply StronglySorted_inv in Hs as [Hs Hall]. rewrite Forall_forall in Hall.
    apply streak_loop_walk_back; [done| | |done].
    + intros x Hx. specialize (Hall x Hx). lia.
    + intros x Hx. rewrite <- Hel, elem_of_cons.
      split; [intros [->|?]; [lia|done] | auto].
Qed.

End recompute_refines.

(** ** Results of the two operations, step by step *)

Section operations.
Import Sql HabitService StreakSpec.

Lemma complete_ok today h db row :
  habits db !! h = Some row →
  (h, today) ∉ habit_completions db →
  complete_habit_for_today today h db
  = ((Some (StreakResult true (next_streak row today)), None),
     update_streak (next_streak row today) (Some today) h
       (insert_completion h today db)).
Proof.
  intros Hrow Hnot. unfold complete_habit_for_today, select_habit.
  rewrite Hrow. apply completion_exists_false in Hnot. rewrite Hnot.
  reflexivity.
Qed.

Lemma complete_already today h db row :
  habits db !! h = Some row →
  (h, today) ∈ habit_completions db →
  complete_habit_for_today today h db
  = ((None, Some "Habit already completed today"%string), db).
Proof.
  intros Hrow Hin. unfold complete_habit_for_today, select_habit.
  rewrite Hrow. apply completion_exists_true in Hin. by rewrite Hin.
Qed.

Lemma manager_complete_ok today h db row :
  habits db !! h = Some row →
  (h, today) ∉ habit_completions db →
  HabitManager.complete_habit today h db
  = ((true, "Habit completed!"%string,
      Some (HabitManager.Completion (next_streak row today) today)),
     update_streak (next_streak row today) (Some today) h
       (insert_completion h today db)).
Proof.
  intros Hrow Hnot. unfold HabitManager.complete_habit, select_habit.
  rewrite Hrow. apply completion_exists_false in Hnot. rewrite Hnot.
  reflexivity.
Qed.

Lemma manager_complete_already today h db row :
  habits db !! h = Some row →
  (h, today) ∈ habit_completions db →
  HabitManager.complete_habit today h db
  = ((false, "Habit already completed today"%string, None), db).
Proof.
  intros Hrow Hin. unfold HabitManager.complete_habit, select_habit.
  rewrite Hrow. apply completion_exists_true in Hin. by rewrite Hin.
Qed.

Lemma complete_not_found today h db :
  habits db !! h = None →
  complete_habit_for_today today h db
  = ((None, Some "Habit not found"%string), db).
Proof.
  intros Hrow. unfold complete_habit_for_today, select_habit. by rewrite Hrow.
Qed.

Lemma uncomplete_ok today h db row :
  habits db !! h = Some row →
  (h, today) ∈ habit_completions db →
  let db1 := delete_completion h today db in
  let D := completion_dates h db1 in
  uncomplete_habit_for_today today h db
  = ((Some (StreakResult true (derived_streak D)), None),
     update_streak (derived_streak D) (latest D) h db1).
Proof.
  intros Hrow Hin. unfold uncomplete_habit_for_today, select_habit.
  rewrite Hrow. apply completion_exists_true in Hin. rewrite Hin.
  simpl negb. cbv iota. rewrite recompute_select_dates_desc. reflexivity.
Qed.

Lemma uncomplete_not_completed today h db row :
  habits db !! h = Some row →
  (h, today) ∉ habit_completions db →
  uncomplete_habit_for_today today h db
  = ((None, Some "Habit not completed today"%string), db).
Proof.
  intros Hrow Hnot. unfold uncomplete_habit_for_today, select_habit.
  rewrite Hrow. apply completion_exists_false in Hnot. by rewrite Hnot.
Qed.

Lemma uncomplete_not_found today h db :
  habits db !! h = None →
  uncomplete_habit_for_today today h db
  = ((None, Some "Habit not found"%string), db).
Proof.
  intros Hrow. unfold uncomplete_habit_for_today, select_habit. by rewrite Hrow.
Qed.

(** The same cases with the binding of the arguments in front. *)
Lemma dynamic_complete_unbindable today h db :
  Runtime.bindable h = false →
  Dynamic.complete_habit_for_today today h db
  = (Runtime.Raise Runtime.OverflowError, db).
Proof. intros Hb. unfold Dynamic.complete_habit_for_today. by rewrite Hb. Qed.

Lemma dynamic_uncomplete_unbindable today h db :
  Runtime.bindable h = false →
  Dynamic.uncomplete_habit_for_today today h db
  = (Runtime.Raise Runtime.OverflowError, db).
Proof. intros Hb. unfold Dynamic.uncomplete_habit_for_today. by rewrite Hb. Qed.

Lemma dynamic_complete_not_found today h db :
  Runtime.bindable h = true →
  habits db !! h = None →
  Dynamic.complete_habit_for_today today h db
  = (Runtime.Return (None, Some "Habit not found"%string), db).
Proof.
  intros Hb Hrow. unfold Dynamic.complete_habit_for_today.
  by rewrite Hb, complete_not_found.
Qed.

Lemma dynamic_complete_already today h db row :
  Runtime.bindable h = true →
  habits db !! h = Some row →
  (h, today) ∈ habit_completions db →
  Dynamic.complete_habit_for_today today h db
  = (Runtime.Return (None, Some "Habit already completed today"%string), db).
Proof.
  intros Hb Hrow Hin. unfold Dynamic.complete_habit_for_today.
  by rewrite Hb, (complete_already _ _ _ row).
Qed.

Lemma dynamic_complete_ok today h db row :
  Runtime.bindable h = true →
  habits db !! h = Some row →
  (h, today) ∉ habit_completions db →
  Dynamic.complete_habit_for_today today h db
  = if Runtime.bindable (next_streak row today)
    then (Runtime.Return (Some (StreakResult true (next_streak row today)), None),
          update_streak (next_streak row today) (Some today) h
            (insert_completion h today db))
    else (Runtime.Raise Runtime.OverflowError, db).
Proof.
  intros Hb Hrow Hnot. unfold Dynamic.complete_habit_for_today.
  by rewrite Hb, (complete_ok _ _ _ row).
Qed.

Lemma dynamic_uncomplete_bindable today h db :
  Runtime.bindable h = true →
  Dynamic.uncomplete_habit_for_today today h db
  = (Runtime.Return (uncomplete_habit_for_today today h db).1,
     (uncomplete_habit_for_today today h db).2).
Proof.
  intros Hb. unfold Dynamic.uncomplete_habit_for_today. rewrite Hb.
  by destruct (uncomplete_habit_for_today today h db).
Qed.

Lemma lookup_update_streak s l h db :
  habits (update_streak s l h db) !! h
  = set_streak_last_done s l <$> habits db !! h.
Proof. apply lookup_alter_eq. Qed.


(** Either operation touches no completion row dated another day. *)
Lemma complete_touches_today now h db h' d :
  d ≠ now →
  (h', d) ∈ habit_completions (complete_habit_for_today now h db).2
  ↔ (h', d) ∈ habit_completions db.
Proof.
  intros Hne. unfold complete_habit_for_today, select_habit.
  destruct (habits db !! h); [|done].
  destruct (completion_exists h now db); [done|]. simpl.
  rewrite elem_of_union, elem_of_singleton. split; [|auto].
  intros [[= _ ?]|?]; done.
Qed.

Lemma uncomplete_touches_today now h db h' d :
  d ≠ now →
  (h', d) ∈ habit_completions (uncomplete_habit_for_today now h db).2
  ↔ (h', d) ∈ habit_completions db.
Proof.
  intros Hne. unfold uncomplete_habit_for_today, select_habit.
  destruct (habits db !! h); [|done].
  destruct (completion_exists h now db); [|done]. simpl.
  destruct (recompute _) as [s l]. simpl.
  rewrite elem_of_difference, elem_of_singleton. split; [by intros [? _]|].
  intros Hin. split; [done|]. intros [= _ ?]. done.
Qed.

Lemma foldl_assign_same r updates :
  same_but_name_reminder r (foldl assign r updates).
Proof.
  revert r. induction updates as [|a updates IH]; intros r; simpl; [done|].
  destruct (IH (assign r a)) as (Hs & Hl & Hc & Ha).
  unfold same_but_name_reminder. rewrite Hs, Hl, Hc, Ha. by destruct a.
Qed.

Lemma rows_changed_refl R `{!Reflexive R} k db : rows_changed R k db db.
Proof.
  split; [done|]. split; [done|]. destruct (habits db !! k); by constructor.
Qed.

Lemma rows_changed_alter (R : relation habit_row) f k db :
  (∀ r, R r (f r)) →
  rows_changed R k db (MkDB (alter f k (habits db)) (habit_completions db)).
Proof.
  intros Hf. split; [done|]. split.
  - intros i Hne. simpl. by rewrite lookup_alter_ne.
  - simpl. rewrite lookup_alter_eq. destruct (habits db !! k); by constructor.
Qed.

#[local] Instance same_but_name_reminder_refl : Reflexive same_but_name_reminder.
Proof. by intros r. Qed.
#[local] Instance same_but_archived_refl : Reflexive same_but_archived.
Proof. by intros r. Qed.

Lemma update_habit_rows strip lower k nm rt db :
  rows_changed same_but_name_reminder k db (update_habit strip lower k nm rt db).2.
Proof.
  unfold update_habit, select_habit.
  destruct (habits db !! k) as [habit|] eqn:Hk; [|apply rows_changed_refl, _].
  destruct (name_update _ _ _ _ _) as [err|updates]; [apply rows_changed_refl, _|].
  set (ups := match rt with Some _ => _ | None => _ end).
  destruct ups as [|a ups']; [apply rows_changed_refl, _|].
  set (db' := update_habit_fields _ _ _).
  assert (Hch : rows_changed same_but_name_reminder k db db')
    by (apply rows_changed_alter; intros r; apply foldl_assign_same).
  by destruct (habits db' !! k).
Qed.

Lemma archive_rows v k db :
  rows_changed same_but_archived k db (update_is_archived v k db).1.
Proof. apply rows_changed_alter. by intros r. Qed.

Lemma archive_habit_rows k db :
  rows_changed same_but_archived k db (archive_habit k db).2.
Proof.
  unfold archive_habit. pose proof (archive_rows 1 k db) as H.
  destruct (update_is_archived 1 k db) as [db' n]. simpl in H.
  destruct (n =? 0); [apply rows_changed_refl, _|done].
Qed.

Lemma unarchive_habit_rows k db :
  rows_changed same_but_archived k db (unarchive_habit k db).2.
Proof.
  unfold unarchive_habit. pose proof (archive_rows 0 k db) as H.
  destruct (update_is_archived 0 k db) as [db' n]. simpl in H.
  destruct (n =? 0); [apply rows_changed_refl, _|done].
Qed.

(** A change of one row that keeps [streak] and [last_done] keeps them in
    the whole table. *)
Lemma rows_changed_streak (R : relation habit_row) k db db' :
  (∀ r r', R r r' → streak r' = streak r ∧ last_done r' = last_done r) →
  rows_changed R k db db' →
  habit_completions db' = habit_completions db
  ∧ ∀ i, streak <$> habits db' !! i = streak <$> habits db !! i
         ∧ last_done <$> habits db' !! i = last_done <$> habits db !! i.
Proof.
  intros HR (Hc & Ho & Hk). split; [done|]. intros i.
  destruct (decide (i = k)) as [->|Hne]; [|by rewrite Ho].
  destruct Hk as [r r' Hrr|]; [|done]. simpl.
  destruct (HR _ _ Hrr) as [-> ->]. done.
Qed.

End operations.

Section invariant.
Import Sql HabitService StreakSpec.

(** Adding a day later than every day of the set. *)
Lemma latest_insert_above (D : gset Z) t :
  (∀ d, d ∈ D → d < t) → latest ({[ t ]} ∪ D) = Some t.
Proof.
  intros Hlt. apply latest_Some. split; [set_solver|].
  intros d [->%elem_of_singleton|Hd]%elem_of_union; [lia|].
  specialize (Hlt d Hd). lia.
Qed.

Lemma derived_streak_insert_above (D : gset Z) t :
  (∀ d, d ∈ D → d < t) →
  derived_streak ({[ t ]} ∪ D) = 1 + walk_back D (t - 1) (size D).
Proof.
  intros Hlt. unfold derived_streak. rewrite latest_insert_above by done.
  assert (Hnot : t ∉ D) by (intros Hin; specialize (Hlt t Hin); lia).
  rewrite size_union by set_solver. rewrite size_singleton. simpl.
  rewrite decide_True by set_solver. f_equal.
  apply walk_back_ext. intros x Hx. rewrite elem_of_union, elem_of_singleton.
  split; [intros [->|?]; [lia|done] | auto].
Qed.

(** The streak written by a completion on a day after all recorded days is
    the streak of the enlarged set, when the cache was right before. *)
Lemma next_streak_derived row (D : gset Z) t :
  streak row = derived_streak D →
  last_done row = latest D →
  (∀ d, d ∈ D → d < t) →
  next_streak row t = derived_streak ({[ t ]} ∪ D).
Proof.
  intros Hs Hl Hlt. rewrite derived_streak_insert_above by done.
  unfold next_streak.
  rewrite Hl. destruct (latest D) as [l|] eqn:Hlat.
  - apply latest_Some in Hlat as Hmax. destruct Hmax as [HlD Hub].
    specialize (Hlt l HlD) as Hll.
    destruct (Z.eqb_spec (t - l) 1) as [Hgap|Hgap].
    + rewrite Hs. unfold derived_streak. rewrite Hlat.
      replace (t - 1) with l by lia. lia.
    + rewrite walk_back_notin; [lia|].
      intros Hin. specialize (Hub _ Hin). lia.
  - apply latest_None in Hlat. subst D.
    rewrite walk_back_notin; [lia|]. apply not_elem_of_empty.
Qed.

Lemma consistent_frame h db db' :
  habits db' !! h = habits db !! h →
  completion_dates h db' = completion_dates h db →
  consistent h db → consistent h db'.
Proof.
  intros Hh Hd (row & Hrow & Hs & Hl). exists row.
  by rewrite Hh, Hd.
Qed.

Lemma complete_other h h' t db :
  h' ≠ h →
  habits (complete_habit_for_today t h' db).2 !! h = habits db !! h
  ∧ completion_dates h (complete_habit_for_today t h' db).2 = completion_dates h db.
Proof.
  intros Hne. unfold complete_habit_for_today, select_habit.
  destruct (habits db !! h'); [|done].
  destruct (completion_exists h' t db); [done|]. simpl. split.
  - by apply lookup_alter_ne.
  - rewrite completion_dates_update. by apply completion_dates_insert_ne.
Qed.

Lemma uncomplete_other h h' t db :
  h' ≠ h →
  habits (uncomplete_habit_for_today t h' db).2 !! h = habits db !! h
  ∧ completion_dates h (uncomplete_habit_for_today t h' db).2 = completion_dates h db.
Proof.
  intros Hne. unfold uncomplete_habit_for_today, select_habit.
  destruct (habits db !! h'); [|done].
  destruct (completion_exists h' t db); [|done]. simpl.
  destruct (recompute _) as [s l]. simpl. split.
  - by apply lookup_alter_ne.
  - rewrite completion_dates_update. by apply completion_dates_delete_ne.
Qed.

Lemma complete_cache_ok h t db :
  cache_ok h t db → cache_ok h t (complete_habit_for_today t h db).2.
Proof.
  intros [Hc Hub]. destruct (decide ((h, t) ∈ habit_completions db)) as [Hin|Hnot].
  { destruct Hc as (row & Hrow & ?). rewrite (complete_already _ _ _ row) by done.
    split; [by exists row|done]. }
  destruct Hc as (row & Hrow & Hs & Hl).
  rewrite (complete_ok _ _ _ row) by done. simpl.
  assert (Hlt : ∀ d, d ∈ completion_dates h db → d < t).
  { intros d Hd. specialize (Hub d Hd).
    assert (d ≠ t) by (intros ->; by apply elem_of_completion_dates in Hd). lia. }
  split.
  - exists (set_streak_last_done (next_streak row t) (Some t) row).
    rewrite lookup_update_streak, completion_dates_update,
      completion_dates_insert. simpl. rewrite Hrow. split; [done|]. simpl.
    split; [by apply next_streak_derived|].
    by rewrite latest_insert_above.
  - intros d. rewrite completion_dates_update, completion_dates_insert.
    intros [->%elem_of_singleton|Hd]%elem_of_union; [lia|by apply Hub].
Qed.

Lemma uncomplete_cache_ok h t db :
  cache_ok h t db → cache_ok h t (uncomplete_habit_for_today t h db).2.
Proof.
  intros [Hc Hub]. destruct Hc as (row & Hrow & Hs & Hl).
  destruct (decide ((h, t) ∈ habit_completions db)) as [Hin|Hnot].
  - rewrite (uncomplete_ok _ _ _ row) by done. simpl. split.
    + eexists. rewrite lookup_update_streak, completion_dates_update.
      simpl. rewrite Hrow. simpl. split; [done|]. by split.
    + intros d. rewrite completion_dates_update, completion_dates_delete.
      intros [Hd _]%elem_of_difference. by apply Hub.
  - rewrite (uncomplete_not_completed _ _ _ row) by done.
    split; [by exists row|done].
Qed.

Lemma step_cache_ok h t a db :
  cache_ok h t db → cache_ok h t (step t a db).
Proof.
  intros Hok. destruct a as [h'|h']; simpl.
  - destruct (decide (h' = h)) as [->|Hne]; [by apply complete_cache_ok|].
    destruct (complete_other h h' t db Hne) as [Hh Hd]. destruct Hok as [Hc Hub].
    split; [by eapply consistent_frame|]. by rewrite Hd.
  - destruct (decide (h' = h)) as [->|Hne]; [by apply uncomplete_cache_ok|].
    destruct (uncomplete_other h h' t db Hne) as [Hh Hd]. destruct Hok as [Hc Hub].
    split; [by eapply consistent_frame|]. by rewrite Hd.
Qed.

Lemma cache_ok_later h t t' db : t ≤ t' → cache_ok h t db → cache_ok h t' db.
Proof.
  intros Hle [Hc Hub]. split; [done|]. intros d Hd. specialize (Hub d Hd). lia.
Qed.

(** Along a history whose clock never goes back the invariant is kept. *)
Lemma run_cache_ok h ops : ∀ t db,
  cache_ok h t db →
  StronglySorted Z.le (t :: (fst <$> ops)) →
  ∃ t', cache_ok h t' (run ops db).
Proof.
  induction ops as [|[t1 a] ops IH]; intros t db Hok Hs; simpl.
  - by exists t.
  - apply StronglySorted_inv in Hs as [Hs Hall]. simpl in Hs.
    apply Forall_cons in Hall as [Ht1 _].
    apply (IH t1); [|done].
    apply step_cache_ok. by apply (cache_ok_later h t).
Qed.

Lemma fresh_cache_ok h t db : fresh h db → cache_ok h t db.
Proof.
  intros (row & Hrow & Hs & Hl & HD). split.
  - exists row. rewrite HD, Hs, Hl. split; [done|].
    by rewrite derived_streak_empty, (proj2 (latest_None ∅)).
  - intros d. rewrite HD. by intros ?%not_elem_of_empty.
Qed.

(** Undoing a completion just made gives back the store, when the cache
    was right. *)
Lemma round_trip_id today h db :
  consistent h db → (h, today) ∉ habit_completions db →
  round_trip today h db = db.
Proof.
  intros (row & Hrow & Hs & Hl) Hnot. unfold round_trip.
  rewrite (complete_ok _ _ _ row) by done. simpl.
  rewrite (uncomplete_ok _ _ _ (set_streak_last_done (next_streak row today) (Some today) row)).
  2:{ rewrite lookup_update_streak. simpl. by rewrite Hrow. }
  2:{ simpl. set_solver. }
  simpl. rewrite completion_dates_delete, completion_dates_update,
    completion_dates_insert.
  assert (HD : ({[today]} ∪ completion_dates h db) ∖ {[today]} = completion_dates h db).
  { assert (today ∉ completion_dates h db)
      by (by rewrite elem_of_completion_dates). set_solver. }
  rewrite HD, <- Hs, <- Hl.
  destruct db as [H C]. unfold update_streak, delete_completion,
    insert_completion. simpl in *. f_equal.
  - apply map_eq. intros i. destruct (decide (h = i)) as [<-|Hne].
    + rewrite !lookup_alter_eq, Hrow. simpl. by destruct row.
    + by rewrite !lookup_alter_ne.
  - set_solver.
Qed.

End invariant.

(** ** The operations run on examples *)

Section examples.
Import HabitService.

(** Completing on days 1, 2, 3 brings the streak to 3. *)
Example three_days : cached 1 (complete_on [1; 2; 3]) = Some (3, Some 3).
Proof. vm_compute. reflexivity. Qed.

(** Undoing day 3, then day 2, then day 1. *)
Example three_days_undo_3 :
  cached 1 (uncomplete_on [3] (complete_on [1; 2; 3])) = Some (2, Some 2).
Proof. vm_compute. reflexivity. Qed.

Example three_days_undo_3_2 :
  cached 1 (uncomplete_on [3; 2] (complete_on [1; 2; 3])) = Some (1, Some 1).
Proof. vm_compute. reflexivity. Qed.

Example three_days_undo_3_2_1 :
  cached 1 (uncomplete_on [3; 2; 1] (complete_on [1; 2; 3])) = Some (0, None).
Proof. vm_compute. reflexivity. Qed.

(** Days 1, 2, 4: the gap resets the streak; undoing day 4 walks back
    from day 2. *)
Example gap_resets : cached 1 (complete_on [1; 2; 4]) = Some (1, Some 4).
Proof. vm_compute. reflexivity. Qed.

Example gap_undo :
  (uncomplete_habit_for_today 4 1 (complete_on [1; 2; 4])).1
    = (Some (StreakResult true 2), None)
  ∧ cached 1 (uncomplete_on [4] (complete_on [1; 2; 4])) = Some (2, Some 2).
Proof. split; vm_compute; reflexivity. Qed.

(** With a clock that goes back the cache is no longer derivable: after
    day 10 and then day 9, [last_done] is day 9 and the streak 1, while
    the rows hold the run 9, 10. *)
Example clock_back :
  cached 1 (complete_on [10; 9]) = Some (1, Some 9)
  ∧ StreakSpec.latest (Sql.completion_dates 1 (complete_on [10; 9])) = Some 10
  ∧ StreakSpec.derived_streak (Sql.completion_dates 1 (complete_on [10; 9])) = 2.
Proof. repeat split; vm_compute; reflexivity. Qed.

(** Renaming: the name is stripped, a name that differs only in case from
    another habit's is refused, and an empty reminder time clears it. *)
Example rename_ok :
  (update_habit AsciiText.strip AsciiText.lower 1 (Some "  Hydrate ") None db_two).1
  = (Some (Updated.Mk 1 "Hydrate" 3 (Some 9) "2024-01-01T08:00:00" None), None).
Proof. vm_compute. reflexivity. Qed.

Example rename_duplicate :
  update_habit AsciiText.strip AsciiText.lower 1 (Some "read book") None db_two
  = ((None, Some "Habit with this name already exists"%string), db_two).
Proof. vm_compute. reflexivity. Qed.

Example reminder_cleared :
  (update_habit AsciiText.strip AsciiText.lower 2 None (Some EmptyString) db_two).1
  = (Some (Updated.Mk 2 "Read Book" 0 None "2024-01-02T08:00:00" None), None).
Proof. vm_compute. reflexivity. Qed.

Example nothing_to_update :
  update_habit AsciiText.strip AsciiText.lower 2 None None db_two
  = ((None, Some "No fields to update"%string), db_two).
Proof. vm_compute. reflexivity. Qed.

Example archive_first :
  (archive_habit 1 db_two).1 = (Some true, None)
  ∧ is_archived <$> habits (archive_habit 1 db_two).2 !! 1 = Some 1
  ∧ cached 1 (archive_habit 1 db_two).2 = Some (3, Some 9).
Proof. repeat split; vm_compute; reflexivity. Qed.

Example unarchive_unknown :
  unarchive_habit 5 db_two = ((None, Some "Habit not found"%string), db_two).
Proof. vm_compute. reflexivity. Qed.

End examples.

(** ** The claims *)

Section claims.
Import Sql HabitService StreakSpec.







(** C6.  For an existing habit, [uncomplete_habit_for_today] without a
    completion row for today returns the error "Habit not completed today"
    and leaves the store as it was; it returns a result (and no error)
    exactly when the row for today exists. *)
Theorem uncomplete_needs_completion today h db row :
  habits db !! h = Some row →
  ((h, today) ∉ habit_completions db →
     uncomplete_habit_for_today today h db
     = ((None, Some "Habit not completed today"%string), db))
  ∧ (is_Some (uncomplete_habit_for_today today h db).1.1
     ∧ (uncomplete_habit_for_today today h db).1.2 = None
     ↔ (h, today) ∈ habit_completions db).
Proof.
  intros Hrow. split; [by apply (uncomplete_not_completed _ _ _ row)|].
  destruct (decide ((h, today) ∈ habit_completions db)) as [Hin|Hnot].
  - rewrite (uncomplete_ok _ _ _ _ Hrow Hin). simpl. split; [done|].
    intros _. split; [by eexists|done].
  - rewrite (uncomplete_not_completed _ _ _ _ Hrow Hnot). simpl.
    split; [|done]. intros [[x [=]] _].
Qed.

Lemma uncomplete_needs_completion_witness :
  uncomplete_habit_for_today 7 1 db_fresh
  = ((None, Some "Habit not completed today"%string), db_fresh)
  ∧ is_Some (uncomplete_habit_for_today 2 1 (complete_on [1; 2])).1.1.
Proof.
  split.
  - refine (proj1 (uncomplete_needs_completion 7 1 db_fresh
      (HabitRow "Drink Water" 0 None "2024-01-01T08:00:00" None 0) _) _).
    + vm_compute. reflexivity.
    + rewrite <- completion_exists_false. vm_compute. reflexivity.
  - refine (proj1 (proj2 (proj2 (uncomplete_needs_completion 2 1 (complete_on [1; 2])
      (HabitRow "Drink Water" 2 (Some 2) "2024-01-01T08:00:00" None 0) _)) _)).
    + vm_compute. reflexivity.
    + rewrite <- completion_exists_true. vm_compute. reflexivity.
Defined.

(** An unknown id that SQLite can bind is reported as "Habit not found" by
    both methods, as a returned value and with the store untouched; that
    message differs from the two precondition errors, which differ from
    each other. *)
Lemma bindable_unknown_habit_not_found today h db :
  Runtime.bindable h = true →
  habits db !! h = None →
  Dynamic.complete_habit_for_today today h db
    = (Runtime.Return (None, Some "Habit not found"%string), db)
  ∧ Dynamic.uncomplete_habit_for_today today h db
    = (Runtime.Return (None, Some "Habit not found"%string), db)
  ∧ "Habit not found"%string ≠ "Habit already completed today"%string
  ∧ "Habit not found"%string ≠ "Habit not completed today"%string
  ∧ "Habit already completed today"%string ≠ "Habit not completed today"%string.
Proof.
  intros Hb Hrow. split; [by apply dynamic_complete_not_found|]. split; [|done].
  by rewrite dynamic_uncomplete_bindable, uncomplete_not_found.
Qed.

(** C7.  The id [2 ^ 63] is in no store, SQLite cannot bind it, and the
    routes pass it on.  On any day the first [SELECT] of
    [complete_habit_for_today] and of [uncomplete_habit_for_today] raises
    [OverflowError] outside any [try]: neither method returns, "Habit not
    found" is not reported, and the routes answer 500.
    [HabitManager.complete_habit], which runs the same statements inside a
    [try], returns an error value at the same id. *)
Theorem unknown_habit_overflow today m :
  habits db_fresh !! (2 ^ 63) = None
  ∧ Dynamic.complete_habit_for_today today (2 ^ 63) db_fresh
    = (Runtime.Raise Runtime.OverflowError, db_fresh)
  ∧ Dynamic.uncomplete_habit_for_today today (2 ^ 63) db_fresh
    = (Runtime.Raise Runtime.OverflowError, db_fresh)
  ∧ Routes.complete_habit today m (2 ^ 63) db_fresh
    = ((Routes.Unhandled, 500), db_fresh)
  ∧ Routes.uncomplete_habit today (2 ^ 63) db_fresh
    = ((Routes.Unhandled, 500), db_fresh)
  ∧ Dynamic.complete_habit today (2 ^ 63) db_fresh
    = ((false, Runtime.too_large, None), db_fresh).
Proof.
  split; [reflexivity|].
  split; [by apply dynamic_complete_unbindable|].
  split; [by apply dynamic_uncomplete_unbindable|].
  unfold Routes.complete_habit, Routes.uncomplete_habit.
  rewrite dynamic_complete_unbindable, dynamic_uncomplete_unbindable by done.
  done.
Qed.

(** C9.  When the cached [last_done] already is today but there is no
    completion row for today, [complete_habit_for_today] succeeds (the gap
    of 0 days takes the non-consecutive branch) and the streak it returns
    and stores is 1, whatever the streak was. *)
Theorem complete_same_day_resets today h db row :
  habits db !! h = Some row →
  last_done row = Some today →
  (h, today) ∉ habit_completions db →
  ∃ db',
    complete_habit_for_today today h db = ((Some (StreakResult true 1), None), db')
    ∧ habits db' !! h = Some (set_streak_last_done 1 (Some today) row)
    ∧ (h, today) ∈ habit_completions db'.
Proof.
  intros Hrow Hlast Hnot. eexists.
  rewrite (complete_ok _ _ _ _ Hrow Hnot).
  assert (next_streak row today = 1) as ->.
  { unfold next_streak.
    rewrite Hlast. by replace (today - today) with 0 by lia. }
  split; [done|]. split.
  - rewrite lookup_update_streak. simpl. by rewrite Hrow.
  - simpl. set_solver.
Qed.

Lemma complete_same_day_resets_witness :
  ∃ db',
    complete_habit_for_today 10 1 db_sample = ((Some (StreakResult true 1), None), db')
    ∧ streak <$> habits db' !! 1 = Some 1.
Proof.
  destruct (complete_same_day_resets 10 1 db_sample
              (HabitRow "Drink Water" 5 (Some 10) "2024-01-01 08:00:00" None 0))
    as (db' & Heq & Hrow & _).
  - vm_compute. reflexivity.
  - reflexivity.
  - rewrite <- completion_exists_false. vm_compute. reflexivity.
  - exists db'. split; [exact Heq|]. rewrite Hrow. reflexivity.
Defined.

(** C3, as stated: for every habit without a completion row for today,
    completing and at once undoing restores the streak and [last_done].
    It fails on the first sample habit, whose cached streak of 5 has no
    completion rows behind it: the undo recomputes from the (now empty)
    rows and writes streak 0 and no [last_done]. *)
Lemma round_trip_sample_not_restored :
  habits db_sample !! 1
    = Some (HabitRow "Drink Water" 5 (Some 10) "2024-01-01 08:00:00" None 0)
  ∧ ((1, 10) ∉ habit_completions db_sample)
  ∧ habits (round_trip 10 1 db_sample) !! 1
    = Some (HabitRow "Drink Water" 0 None "2024-01-01 08:00:00" None 0)
  ∧ ¬ round_trip_restores 10 1 db_sample.
Proof.
  assert (H1 : habits db_sample !! 1
    = Some (HabitRow "Drink Water" 5 (Some 10) "2024-01-01 08:00:00" None 0))
    by (vm_compute; reflexivity).
  assert (H2 : (1, 10) ∉ habit_completions db_sample)
    by (rewrite <- completion_exists_false; vm_compute; reflexivity).
  assert (H3 : habits (round_trip 10 1 db_sample) !! 1
    = Some (HabitRow "Drink Water" 0 None "2024-01-01 08:00:00" None 0))
    by (vm_compute; reflexivity).
  repeat split; try done.
  intros Hclaim. destruct (Hclaim _ H1 H2) as (row' & Hrow' & Hs & _).
  rewrite H3 in Hrow'. injection Hrow' as <-. simpl in Hs. lia.
Qed.

(** C3, amended.  When the cached streak and [last_done] of the habit agree
    with its completion rows and there is no row for today, completing and
    at once undoing both succeed and give back the store unchanged, hence
    the streak and [last_done] from before the completion. *)
Theorem round_trip_restores_consistent today h db :
  consistent h db →
  (h, today) ∉ habit_completions db →
  (complete_habit_for_today today h db).1.2 = None
  ∧ (uncomplete_habit_for_today today h
       (complete_habit_for_today today h db).2).1.2 = None
  ∧ round_trip today h db = db
  ∧ round_trip_restores today h db.
Proof.
  intros Hc Hnot. pose proof (round_trip_id today h db Hc Hnot) as Hid.
  destruct Hc as (row & Hrow & Hs & Hl).
  split; [by rewrite (complete_ok _ _ _ row)|]. split.
  - rewrite (complete_ok _ _ _ row) by done. simpl.
    rewrite (uncomplete_ok _ _ _
      (set_streak_last_done (next_streak row today) (Some today) row)); [done| |].
    + rewrite lookup_update_streak. simpl. by rewrite Hrow.
    + simpl. set_solver.
  - split; [done|]. intros row0 Hrow0 _. exists row0. by rewrite Hid.
Qed.

Lemma round_trip_restores_consistent_witness :
  round_trip 4 1 (complete_on [1; 2]) = complete_on [1; 2].
Proof.
  refine (proj1 (proj2 (proj2
    (round_trip_restores_consistent 4 1 (complete_on [1; 2]) _ _)))).
  - exists (HabitRow "Drink Water" 2 (Some 2) "2024-01-01T08:00:00" None 0).
    split; [vm_compute; reflexivity|]. split; vm_compute; reflexivity.
  - rewrite <- completion_exists_false. vm_compute. reflexivity.
Defined.

(** C4.  Start from a freshly created habit (streak 0, no [last_done], no
    completion rows) and serve any history of complete and uncomplete
    requests, for this or any other habit id, successful or not, whose
    clock readings never decrease.  Then the stored [last_done] is the
    latest date among the habit's completion rows and the stored streak is
    the specification's streak of those rows: 0 and no [last_done] when
    there are none, otherwise the length of the run of present days that
    ends at the latest date. *)
Theorem cache_rederivable h ops db :
  fresh h db →
  Sorted Z.le (fst <$> ops) →
  ∃ row, habits (run ops db) !! h = Some row
    ∧ (let D := completion_dates h (run ops db) in
       streak row = derived_streak D
       ∧ last_done row = latest D
       ∧ (D = ∅ → streak row = 0 ∧ last_done row = None)
       ∧ (∀ m, last_done row = Some m →
            m ∈ D ∧ (∀ d, d ∈ D → d ≤ m)
            ∧ 1 ≤ streak row
            ∧ (∀ i, 0 ≤ i < streak row → m - i ∈ D)
            ∧ m - streak row ∉ D)).
Proof.
  intros Hfresh Hsorted.
  assert (∃ t, cache_ok h t (run ops db)) as [t [Hc _]].
  { apply Sorted_StronglySorted in Hsorted; [|intros x y z; lia].
    destruct ops as [|[t0 a] ops'].
    - exists 0. by apply fresh_cache_ok.
    - apply (run_cache_ok h ((t0, a) :: ops') t0); [by apply fresh_cache_ok|].
      constructor; [done|]. simpl in *. constructor; [lia|].
      by apply StronglySorted_inv in Hsorted as [_ ?]. }
  destruct Hc as (row & Hrow & Hs & Hl). exists row. split; [done|].
  simpl. split; [done|]. split; [done|]. split.
  - intros HD. rewrite Hs, Hl, HD.
    by rewrite derived_streak_empty, (proj2 (latest_None ∅)).
  - intros m Hm. rewrite Hl in Hm.
    destruct (derived_streak_run _ _ Hm) as (H1 & Hrun & Hstop).
    apply latest_Some in Hm as [HmD Hub]. rewrite Hs. by repeat split.
Qed.

Lemma cache_rederivable_witness :
  ∃ row,
    habits (run [(1, Complete 1); (2, Complete 1); (2, Complete 7);
                 (4, Complete 1); (4, Uncomplete 1)] db_fresh) !! 1 = Some row
    ∧ streak row = 2 ∧ last_done row = Some 2.
Proof.
  destruct (cache_rederivable 1
    [(1, Complete 1); (2, Complete 1); (2, Complete 7);
     (4, Complete 1); (4, Uncomplete 1)] db_fresh) as (row & Hrow & _).
  - exists (HabitRow "Drink Water" 0 None "2024-01-01T08:00:00" None 0).
    split; [vm_compute; reflexivity|]. split; [reflexivity|].
    split; [reflexivity|]. apply set_eq. intros d.
    rewrite elem_of_completion_dates. reflexivity.
  - simpl. repeat constructor; lia.
  - exists row. split; [exact Hrow|].
    assert (E : habits (run [(1, Complete 1); (2, Complete 1); (2, Complete 7);
                 (4, Complete 1); (4, Uncomplete 1)] db_fresh) !! 1
                = Some (HabitRow "Drink Water" 2 (Some 2) "2024-01-01T08:00:00" None 0))
      by (vm_compute; reflexivity).
    rewrite E in Hrow. injection Hrow as <-. split; reflexivity.
Defined.

(** C8, as stated: a call may pass the date to act on, and then the
    operation applies to that date.  Neither method has a date parameter:
    a call that passes day 7 while the clock reads day 10 raises instead of
    completing day 7. *)
Lemma supplied_date_not_accepted :
  Call.call_complete_habit_for_today 10 1 (Some 7) db_fresh = None
  ∧ Call.call_complete_habit_for_today 10 1 (Some 7) db_fresh
    ≠ Some (complete_habit_for_today 7 1 db_fresh)
  ∧ Call.call_uncomplete_habit_for_today 10 1 (Some 7) (complete_on [7]) = None
  ∧ Call.call_uncomplete_habit_for_today 10 1 (Some 7) (complete_on [7])
    ≠ Some (uncomplete_habit_for_today 7 1 (complete_on [7])).
Proof. repeat split; done. Qed.

(** C8, amended.  Both operations take the habit id only.  Called with it
    alone they act on the day the system clock reads: they run the
    operation for that day and leave every completion row dated another
    day as it was.  A call that also passes a date is rejected, for both
    operations and every date. *)
Theorem operations_act_on_clock_date now h db :
  Call.call_complete_habit_for_today now h None db
    = Some (complete_habit_for_today now h db)
  ∧ Call.call_uncomplete_habit_for_today now h None db
    = Some (uncomplete_habit_for_today now h db)
  ∧ (∀ h' d, d ≠ now →
       ((h', d) ∈ habit_completions (complete_habit_for_today now h db).2
        ↔ (h', d) ∈ habit_completions db)
       ∧ ((h', d) ∈ habit_completions (uncomplete_habit_for_today now h db).2
          ↔ (h', d) ∈ habit_completions db))
  ∧ (∀ d, Call.call_complete_habit_for_today now h (Some d) db = None
          ∧ Call.call_uncomplete_habit_for_today now h (Some d) db = None).
Proof.
  split; [done|]. split; [done|]. split; [|done].
  intros h' d Hne. split.
  - by apply complete_touches_today.
  - by apply uncomplete_touches_today.
Qed.

Lemma operations_act_on_clock_date_witness :
  Call.call_complete_habit_for_today 3 1 None (complete_on [1; 2])
    = Some (complete_habit_for_today 3 1 (complete_on [1; 2]))
  ∧ ((1, 2) ∈ habit_completions (uncomplete_habit_for_today 3 1 (complete_on [1; 2])).2
     ↔ (1, 2) ∈ habit_completions (complete_on [1; 2])).
Proof.
  destruct (operations_act_on_clock_date 3 1 (complete_on [1; 2]))
    as (Hc & _ & Hother & _).
  split; [exact Hc|]. apply (Hother 1 2). lia.
Defined.

(** C10.  [update_habit], [archive_habit] and [unarchive_habit], on any
    arguments and whether they succeed or not, leave the completion rows
    and every other habit's row as they were, and in the addressed row
    keep [streak] and [last_done] (and [created_at]); [update_habit] can
    change only [name] and [reminder_time] there, the other two only
    [is_archived]. *)
Theorem field_updates_keep_streak strip lower k nm rt db :
  rows_changed same_but_name_reminder k db (update_habit strip lower k nm rt db).2
  ∧ rows_changed same_but_archived k db (archive_habit k db).2
  ∧ rows_changed same_but_archived k db (unarchive_habit k db).2
  ∧ (∀ db', db' ∈ [(update_habit strip lower k nm rt db).2;
                    (archive_habit k db).2; (unarchive_habit k db).2] →
       habit_completions db' = habit_completions db
       ∧ ∀ i, streak <$> habits db' !! i = streak <$> habits db !! i
              ∧ last_done <$> habits db' !! i = last_done <$> habits db !! i).
Proof.
  assert (Hu := update_habit_rows strip lower k nm rt db).
  assert (Ha := archive_habit_rows k db).
  assert (Hn := unarchive_habit_rows k db).
  split; [done|]. split; [done|]. split; [done|].
  intros db' Hin. repeat (apply elem_of_cons in Hin as [->|Hin]).
  - apply (rows_changed_streak same_but_name_reminder k); [|done].
    by intros r r' (? & ? & _).
  - apply (rows_changed_streak same_but_archived k); [|done].
    by intros r r' (_ & ? & ? & _).
  - apply (rows_changed_streak same_but_archived k); [|done].
    by intros r r' (_ & ? & ? & _).
  - by apply elem_of_nil in Hin.
Qed.

Lemma field_updates_keep_streak_witness :
  habit_completions (archive_habit 1 db_two).2 = habit_completions db_two
  ∧ streak <$> habits (archive_habit 1 db_two).2 !! 1 = streak <$> habits db_two !! 1.
Proof.
  destruct (field_updates_keep_streak AsciiText.strip AsciiText.lower 1
              (Some "Hydrate"%string) None db_two) as (_ & _ & _ & Hframe).
  destruct (Hframe (archive_habit 1 db_two).2) as [Hc Hrows].
  - rewrite !elem_of_cons. right. left. reflexivity.
  - split; [exact Hc|]. apply (Hrows 1).
Defined.

End claims.

(** ** Further properties: what the operations leave behind *)

Section stores.
Import Sql HabitService StreakSpec.

(** The store after each service call, by cases. *)
Lemma complete_state today h db :
  (complete_habit_for_today today h db).2 = db
  ∨ ∃ row, habits db !! h = Some row
         ∧ ((h, today) ∉ habit_completions db)
         ∧ (complete_habit_for_today today h db).2
           = update_streak (next_streak row today) (Some today) h
               (insert_completion h today db).
Proof.
  destruct (habits db !! h) as [row|] eqn:Hrow;
    [|left; by rewrite complete_not_found].
  destruct (decide ((h, today) ∈ habit_completions db)) as [Hin|Hnot].
  - left. by rewrite (complete_already _ _ _ row).
  - right. exists row. by rewrite (complete_ok _ _ _ row).
Qed.

Lemma uncomplete_state today h db :
  (uncomplete_habit_for_today today h db).2 = db
  ∨ ∃ row s l, habits db !! h = Some row
         ∧ (h, today) ∈ habit_completions db
         ∧ (uncomplete_habit_for_today today h db).2
           = update_streak s l h (delete_completion h today db).
Proof.
  destruct (habits db !! h) as [row|] eqn:Hrow;
    [|left; by rewrite uncomplete_not_found].
  destruct (decide ((h, today) ∈ habit_completions db)) as [Hin|Hnot].
  - right. exists row. eexists _, _. by rewrite (uncomplete_ok _ _ _ row).
  - left. by rewrite (uncomplete_not_completed _ _ _ row).
Qed.

Lemma add_new_habit_state lower now_iso rowid nm rt db :
  (name_taken lower nm db = true
   ∧ add_new_habit lower now_iso rowid nm rt db
     = ((None, Some "Habit already exists"%string), db))
  ∨ (name_taken lower nm db = false
     ∧ ∃ rem, add_new_habit lower now_iso rowid nm rt db
              = ((Some (Added.Mk rowid nm 0 None false rt), None),
                 insert_habit rowid nm now_iso rem db)).
Proof.
  unfold add_new_habit. destruct (name_taken lower nm db); [by left|].
  right. split; [done|]. destruct rt as [rt|]; [|by exists None].
  destruct (String.eqb rt EmptyString); [by exists None|by exists (Some rt)].
Qed.

Lemma delete_state h db :
  (Routes.delete_habit h db).2 = (HabitManager.delete_habit h db).2
  ∧ ((Routes.delete_habit h db).2 = db
     ∨ (is_Some (habits db !! h)
        ∧ (Routes.delete_habit h db).2
          = MkDB (delete h (habits db))
                 (filter (λ r : Z * date, r.1 ≠ h) (habit_completions db)))).
Proof.
  unfold Routes.delete_habit, HabitManager.delete_habit, select_habit,
    delete_habit_row, delete_completions_of.
  destruct (Runtime.bindable h); [|by split; [|left]]. simpl.
  destruct (habits db !! h) as [row|]; simpl.
  - split; [done|]. right. by split; [eexists|].
  - split; [done|]. by left.
Qed.

(** The routes leave the store they found or the one their service calls
    leave. *)
Lemma route_complete_state today m h db :
  (Routes.complete_habit today m h db).2 = db
  ∨ (Routes.complete_habit today m h db).2 = (complete_habit_for_today today h db).2.
Proof.
  unfold Routes.complete_habit, Dynamic.complete_habit_for_today.
  destruct (Runtime.bindable h); [|by left].
  destruct (complete_habit_for_today today h db) as [[[res|] err] db'].
  - destruct (Runtime.bindable (new_streak res)); [|by left].
    right. by destruct (Routes.truthy err).
  - right. by destruct (Routes.truthy err).
Qed.

Lemma route_uncomplete_state today h db :
  (Routes.uncomplete_habit today h db).2 = db
  ∨ (Routes.uncomplete_habit today h db).2 = (uncomplete_habit_for_today today h db).2.
Proof.
  unfold Routes.uncomplete_habit, Dynamic.uncomplete_habit_for_today.
  destruct (Runtime.bindable h); [|by left].
  destruct (uncomplete_habit_for_today today h db) as [[res err] db'].
  right. by destruct (Routes.truthy err).
Qed.

Lemma route_update_state strip lower h nm rt db :
  (Routes.update_habit strip lower h nm rt db).2 = db
  ∨ ∃ nm', (Routes.update_habit strip lower h nm rt db).2
           = (update_habit strip lower h nm' rt db).2.
Proof.
  assert (Hroute : ∀ r : ret Updated.t * DB,
    (let '((updated, error), db) := r in
     if Routes.truthy error
     then
       let error := default EmptyString error in
       let code :=
         if String.prefix "Habit name" error || String.prefix "Habit with this" error
            || String.prefix "No fields" error
         then 400 else 404 in
       ((Routes.ErrorBody error, code), db)
     else ((Routes.UpdatedBody updated, 200), db)).2 = r.2).
  { intros [[res err] db']. by destruct (Routes.truthy err). }
  unfold Routes.update_habit. rewrite Hroute. unfold Dynamic.update_habit.
  destruct (Runtime.bindable h); [|by left].
  destruct (select_habit h db); [|by left].
  destruct nm as [[nm|]|]; [right; by eexists|by left|right; by eexists].
Qed.

Lemma route_archive_state h db :
  (Routes.archive_habit h db).2 = db
  ∨ (Routes.archive_habit h db).2 = (archive_habit h db).2.
Proof.
  unfold Routes.archive_habit, Dynamic.archive_habit.
  destruct (Runtime.bindable h); [|by left].
  destruct (archive_habit h db) as [[res err] db'].
  right. by destruct (Routes.truthy err).
Qed.

Lemma route_unarchive_state h db :
  (Routes.unarchive_habit h db).2 = db
  ∨ (Routes.unarchive_habit h db).2 = (unarchive_habit h db).2.
Proof.
  unfold Routes.unarchive_habit, Dynamic.unarchive_habit.
  destruct (Runtime.bindable h); [|by left].
  destruct (unarchive_habit h db) as [[res err] db'].
  right. by destruct (Routes.truthy err).
Qed.

Lemma route_create_state strip lower now_iso rowid m nm rt db :
  (Routes.create_habit strip lower now_iso rowid m nm rt db).2 = db
  ∨ (strip nm ≠ EmptyString
     ∧ name_taken lower (strip nm) db = false
     ∧ ∃ rem, (Routes.create_habit strip lower now_iso rowid m nm rt db).2
              = insert_habit rowid (strip nm) now_iso rem db).
Proof.
  unfold Routes.create_habit.
  destruct (String.eqb_spec (strip nm) EmptyString) as [|Hne]; [by left|].
  destruct (add_new_habit_state lower now_iso rowid (strip nm) rt db)
    as [[_ ->]|[Hfree [rem ->]]]; [by left|].
  right. split; [done|]. split; [done|]. by exists rem.
Qed.

Lemma update_state strip lower k nm rt db :
  (update_habit strip lower k nm rt db).2 = db
  ∨ ∃ row updates, habits db !! k = Some row
       ∧ (update_habit strip lower k nm rt db).2 = update_habit_fields updates k db
       ∧ ∀ v, SetName v ∈ updates →
              v ≠ EmptyString ∧ duplicate_name lower v k db = false.
Proof.
  unfold update_habit, select_habit.
  destruct (habits db !! k) as [row|] eqn:Hk; [|by left].
  assert (Hnu : match name_update strip lower nm k db with
                | inl _ => True
                | inr ups => ∀ v, SetName v ∈ ups →
                    v ≠ EmptyString ∧ duplicate_name lower v k db = false
                end).
  { unfold name_update. destruct nm as [nm|]; [|by intros v ?%elem_of_nil].
    cbv zeta. destruct (String.eqb_spec (strip nm) EmptyString) as [|Hne]; [done|].
    destruct (duplicate_name lower (strip nm) k db) eqn:Hdup; [done|].
    intros v [= ->]%list_elem_of_singleton. done. }
  destruct (name_update strip lower nm k db) as [err|ups]; [by left|].
  set (ups' := match rt with Some _ => _ | None => _ end).
  assert (Hups' : ∀ v, SetName v ∈ ups' →
            v ≠ EmptyString ∧ duplicate_name lower v k db = false).
  { intros v Hv. apply Hnu. unfold ups' in Hv. destruct rt; [|done].
    apply elem_of_app in Hv as [?|[=]%list_elem_of_singleton]. done. }
  destruct ups' as [|a ups'']; [by left|]. right. exists row, (a :: ups'').
  split; [done|]. split; [|done].
  by destruct (habits (update_habit_fields (a :: ups'') k db) !! k).
Qed.

Lemma name_taken_false lower n db :
  name_taken lower n db = false
  ↔ ∀ i r, habits db !! i = Some r → lower (name r) ≠ lower n.
Proof.
  unfold name_taken. rewrite <- not_true_iff_false, existsb_exists. split.
  - intros Hno i r Hir Heq. apply Hno. exists (i, r). split.
    + by apply list_elem_of_In, elem_of_map_to_list.
    + simpl. rewrite Heq. apply String.eqb_refl.
  - intros Hall [[i r] [Hin Hb]].
    apply list_elem_of_In, elem_of_map_to_list in Hin. simpl in Hb.
    apply String.eqb_eq in Hb. by eapply Hall.
Qed.

Lemma duplicate_name_false lower n k db :
  duplicate_name lower n k db = false
  ↔ ∀ i r, habits db !! i = Some r → i ≠ k → lower (name r) ≠ lower n.
Proof.
  unfold duplicate_name. rewrite <- not_true_iff_false, existsb_exists. split.
  - intros Hno i r Hir Hne Heq. apply Hno. exists (i, r). split.
    + by apply list_elem_of_In, elem_of_map_to_list.
    + simpl. rewrite Heq, String.eqb_refl. simpl.
      apply negb_true_iff, Z.eqb_neq. done.
  - intros Hall [[i r] [Hin Hb]].
    apply list_elem_of_In, elem_of_map_to_list in Hin. simpl in Hb.
    apply andb_true_iff in Hb as [Hb Hik].
    apply String.eqb_eq in Hb. apply negb_true_iff, Z.eqb_neq in Hik.
    by eapply Hall.
Qed.

Lemma foldl_assign_name r updates :
  name (foldl assign r updates) = name r
  ∨ ∃ v, SetName v ∈ updates ∧ name (foldl assign r updates) = v.
Proof.
  revert r. induction updates as [|a updates IH]; intros r; simpl; [by left|].
  destruct (IH (assign r a)) as [Heq|[v [Hv Heq]]].
  - rewrite Heq. destruct a as [v|v]; simpl; [|by left].
    right. exists v. split; [apply elem_of_cons; by left|done].
  - right. exists v. split; [apply elem_of_cons; by right|done].
Qed.

(** Rows after [update_streak], [set_is_archived] and the row deletion. *)
Lemma lookup_update_streak_Some s l h db i r' :
  habits (update_streak s l h db) !! i = Some r' →
  ∃ r, habits db !! i = Some r ∧ name r = name r' ∧ is_archived r = is_archived r'.
Proof.
  simpl. rewrite lookup_alter. case_decide as Hi.
  - subst i. destruct (habits db !! h) as [r|]; [|done]. intros [= <-]. by exists r.
  - intros Hr. by exists r'.
Qed.

Lemma lookup_archived_Some v k db i r' :
  habits (update_is_archived v k db).1 !! i = Some r' →
  ∃ r, habits db !! i = Some r ∧ name r = name r'
       ∧ (is_archived r' = is_archived r ∨ is_archived r' = v).
Proof.
  simpl. rewrite lookup_alter. case_decide as Hi.
  - subst i. destruct (habits db !! k) as [r|]; [|done]. intros [= <-].
    exists r. split; [done|]. split; [done|]. by right.
  - intros Hr. exists r'. split; [done|]. split; [done|]. by left.
Qed.

Lemma archive_state k db :
  (archive_habit k db).2 = db ∨ (archive_habit k db).2 = (update_is_archived 1 k db).1.
Proof.
  unfold archive_habit. destruct (update_is_archived 1 k db) as [db' n] eqn:E.
  simpl. destruct (n =? 0); [by left|by right].
Qed.

Lemma unarchive_state k db :
  (unarchive_habit k db).2 = db ∨ (unarchive_habit k db).2 = (update_is_archived 0 k db).1.
Proof.
  unfold unarchive_habit. destruct (update_is_archived 0 k db) as [db' n] eqn:E.
  simpl. destruct (n =? 0); [by left|by right].
Qed.

(** The store a request leaves is the old one or one of six updates of it. *)
Lemma serve_shape strip lower db q :
  serve strip lower db q = db
  ∨ (∃ rowid n now_iso rem, n ≠ EmptyString ∧ name_taken lower n db = false
       ∧ serve strip lower db q = insert_habit rowid n now_iso rem db)
  ∨ (∃ s l h d row, habits db !! h = Some row
       ∧ serve strip lower db q = update_streak s l h (insert_completion h d db))
  ∨ (∃ s l h d, serve strip lower db q = update_streak s l h (delete_completion h d db))
  ∨ (∃ k row updates, habits db !! k = Some row
       ∧ serve strip lower db q = update_habit_fields updates k db
       ∧ ∀ v, SetName v ∈ updates →
              v ≠ EmptyString ∧ duplicate_name lower v k db = false)
  ∨ (∃ v k, (v = 0 ∨ v = 1) ∧ serve strip lower db q = (update_is_archived v k db).1)
  ∨ (∃ h, serve strip lower db q
          = MkDB (delete h (habits db))
                 (filter (λ r : Z * date, r.1 ≠ h) (habit_completions db))).
Proof.
  destruct q as [now_iso rowid nm rt|t h|t h|k nm rt|k|k|h]; simpl.
  - destruct (route_create_state strip lower now_iso rowid EmptyString nm rt db)
      as [->|(Hne & Hfree & rem & ->)]; [by left|].
    right. left. by exists rowid, (strip nm), now_iso, rem.
  - destruct (route_complete_state t EmptyString h db) as [->| ->]; [by left|].
    destruct (complete_state t h db) as [->|(row & Hrow & _ & ->)]; [by left|].
    right. right. left. by eexists _, _, h, t, row.
  - destruct (route_uncomplete_state t h db) as [->| ->]; [by left|].
    destruct (uncomplete_state t h db) as [->|(row & s & l & _ & _ & ->)]; [by left|].
    do 3 right. left. by exists s, l, h, t.
  - destruct (route_update_state strip lower k nm rt db) as [->|[nm' ->]]; [by left|].
    destruct (update_state strip lower k nm' rt db)
      as [->|(row & ups & Hrow & -> & Hups)]; [by left|].
    do 4 right. left. by exists k, row, ups.
  - destruct (route_archive_state k db) as [->| ->]; [by left|].
    destruct (archive_state k db) as [->| ->]; [by left|].
    do 5 right. left. exists 1, k. split; [by right|done].
  - destruct (route_unarchive_state k db) as [->| ->]; [by left|].
    destruct (unarchive_state k db) as [->| ->]; [by left|].
    do 5 right. left. exists 0, k. split; [by left|done].
  - destruct (delete_state h db) as [_ [->|[_ ->]]]; [by left|].
    do 6 right. by exists h.
Qed.

Lemma names_unique_sub lower db db' :
  (∀ i r', habits db' !! i = Some r' →
           ∃ r, habits db !! i = Some r ∧ name r = name r') →
  names_unique lower db → names_unique lower db'.
Proof.
  intros Hsub Hu i j ri rj Hi Hj Heq.
  destruct (Hsub _ _ Hi) as (ri0 & Hi0 & Hni), (Hsub _ _ Hj) as (rj0 & Hj0 & Hnj).
  apply (Hu i j ri0 rj0); [done|done|]. by rewrite Hni, Hnj.
Qed.

Lemma names_nonempty_sub db db' :
  (∀ i r', habits db' !! i = Some r' →
           ∃ r, habits db !! i = Some r ∧ name r = name r') →
  names_nonempty db → names_nonempty db'.
Proof.
  intros Hsub Hn i r' Hi. destruct (Hsub _ _ Hi) as (r & Hr & Hnr).
  rewrite <- Hnr. by eapply Hn.
Qed.

Lemma lookup_fields_Some updates k db i r' :
  habits (update_habit_fields updates k db) !! i = Some r' →
  ∃ r, habits db !! i = Some r ∧ is_archived r = is_archived r'
       ∧ (name r' = name r ∨ (i = k ∧ SetName (name r') ∈ updates)).
Proof.
  simpl. rewrite lookup_alter. case_decide as Hi.
  - subst i. destruct (habits db !! k) as [r|]; [|done]. intros [= <-].
    exists r. split; [done|].
    destruct (foldl_assign_same r updates) as (_ & _ & _ & Ha). split; [done|].
    destruct (foldl_assign_name r updates) as [Hn|[v [Hv Hn]]]; [by left|].
    right. split; [done|]. by rewrite Hn.
  - intros Hr. exists r'. split; [done|]. split; [done|]. by left.
Qed.

Lemma serve_referential strip lower db q :
  referential db → referential (serve strip lower db q).
Proof.
  intros Href.
  destruct (serve_shape strip lower db q)
    as [->|[(rowid & n & now_iso & rem & _ & _ & ->)
       |[(s & l & h & d & row & Hrow & ->)
       |[(s & l & h & d & ->)
       |[(k & row & ups & _ & -> & _)
       |[(v & k & _ & ->)|(h & ->)]]]]]]; [done|..]; intros x dx; simpl.
  - intros Hin. specialize (Href x dx Hin). rewrite lookup_insert.
    case_decide; [by eexists|done].
  - rewrite lookup_alter_is_Some.
    intros [[= -> ->]%elem_of_singleton|Hin]%elem_of_union; [by eexists|].
    by apply (Href x dx).
  - rewrite lookup_alter_is_Some. intros [Hin _]%elem_of_difference.
    by apply (Href x dx).
  - rewrite lookup_alter_is_Some. by apply (Href x dx).
  - rewrite lookup_alter_is_Some. by apply (Href x dx).
  - intros [Hne Hin]%elem_of_filter. simpl in Hne.
    rewrite lookup_delete_ne by done. by apply (Href x dx).
Qed.

Lemma serve_names_unique strip lower db q :
  names_unique lower db → names_unique lower (serve strip lower db q).
Proof.
  intros Hu.
  destruct (serve_shape strip lower db q)
    as [->|[(rowid & n & now_iso & rem & _ & Hfree & ->)
       |[(s & l & h & d & row & Hrow & ->)
       |[(s & l & h & d & ->)
       |[(k & row & ups & _ & -> & Hups)
       |[(v & k & _ & ->)|(h & ->)]]]]]]; [done|..].
  - rewrite name_taken_false in Hfree. intros i j ri rj. simpl.
    rewrite !lookup_insert. repeat case_decide; subst.
    + done.
    + intros [= <-] Hj Heq. simpl in Heq. by destruct (Hfree j rj Hj).
    + intros Hi [= <-] Heq. simpl in Heq. by destruct (Hfree i ri Hi).
    + apply Hu.
  - apply (names_unique_sub lower db); [|done]. intros i r' Hi.
    apply lookup_update_streak_Some in Hi as (r & Hr & Hn & _). by exists r.
  - apply (names_unique_sub lower db); [|done]. intros i r' Hi.
    apply lookup_update_streak_Some in Hi as (r & Hr & Hn & _). by exists r.
  - intros i j ri rj Hi Hj Heq.
    apply lookup_fields_Some in Hi as (ri0 & Hi0 & _ & Hni).
    apply lookup_fields_Some in Hj as (rj0 & Hj0 & _ & Hnj).
    destruct Hni as [Hni|[-> Hvi]], Hnj as [Hnj|[-> Hvj]]; [| | |done].
    + apply (Hu i j ri0 rj0); [done|done|]. by rewrite <- Hni, <- Hnj.
    + destruct (decide (i = k)) as [|Hne]; [done|].
      destruct (Hups _ Hvj) as [_ Hdup]. rewrite duplicate_name_false in Hdup.
      destruct (Hdup i ri0 Hi0 Hne). by rewrite <- Hni.
    + destruct (decide (k = j)) as [|Hne]; [done|].
      destruct (Hups _ Hvi) as [_ Hdup]. rewrite duplicate_name_false in Hdup.
      destruct (Hdup j rj0 Hj0); [done|]. by rewrite <- Hnj.
  - apply (names_unique_sub lower db); [|done]. intros i r' Hi.
    apply lookup_archived_Some in Hi as (r & Hr & Hn & _). by exists r.
  - apply (names_unique_sub lower db); [|done]. intros i r'. simpl.
    rewrite lookup_delete_Some. intros [_ Hr]. by exists r'.
Qed.

Lemma serve_names_nonempty strip lower db q :
  names_nonempty db → names_nonempty (serve strip lower db q).
Proof.
  intros Hn.
  destruct (serve_shape strip lower db q)
    as [->|[(rowid & n & now_iso & rem & Hne & _ & ->)
       |[(s & l & h & d & row & Hrow & ->)
       |[(s & l & h & d & ->)
       |[(k & row & ups & _ & -> & Hups)
       |[(v & k & _ & ->)|(h & ->)]]]]]]; [done|..].
  - intros i r. simpl. rewrite lookup_insert. case_decide.
    + by intros [= <-].
    + apply Hn.
  - apply (names_nonempty_sub db); [|done]. intros i r' Hi.
    apply lookup_update_streak_Some in Hi as (r & Hr & Hnm & _). by exists r.
  - apply (names_nonempty_sub db); [|done]. intros i r' Hi.
    apply lookup_update_streak_Some in Hi as (r & Hr & Hnm & _). by exists r.
  - intros i r' Hi. apply lookup_fields_Some in Hi as (r & Hr & _ & [->|[_ Hv]]).
    + by eapply Hn.
    + by destruct (Hups _ Hv).
  - apply (names_nonempty_sub db); [|done]. intros i r' Hi.
    apply lookup_archived_Some in Hi as (r & Hr & Hnm & _). by exists r.
  - apply (names_nonempty_sub db); [|done]. intros i r'. simpl.
    rewrite lookup_delete_Some. intros [_ Hr]. by exists r'.
Qed.

Lemma serve_flags_ok strip lower db q :
  flags_ok db → flags_ok (serve strip lower db q).
Proof.
  intros Hf.
  destruct (serve_shape strip lower db q)
    as [->|[(rowid & n & now_iso & rem & _ & _ & ->)
       |[(s & l & h & d & row & Hrow & ->)
       |[(s & l & h & d & ->)
       |[(k & row & ups & _ & -> & _)
       |[(v & k & Hv & ->)|(h & ->)]]]]]]; [done|..]; intros i r'.
  - simpl. rewrite lookup_insert. case_decide.
    + intros [= <-]. by left.
    + apply Hf.
  - intros Hi. apply lookup_update_streak_Some in Hi as (r & Hr & _ & <-).
    by eapply Hf.
  - intros Hi. apply lookup_update_streak_Some in Hi as (r & Hr & _ & <-).
    by eapply Hf.
  - intros Hi. apply lookup_fields_Some in Hi as (r & Hr & <- & _). by eapply Hf.
  - intros Hi. apply lookup_archived_Some in Hi as (r & Hr & _ & [->| ->]);
      [by eapply Hf|done].
  - simpl. rewrite lookup_delete_Some. intros [_ Hr]. by eapply Hf.
Qed.


End stores.

(** ** Further properties of the habit code *)

Section more.
Import Sql HabitService StreakSpec.

Lemma foldl_serve_invariant (P : DB → Prop) strip lower reqs :
  (∀ db q, P db → P (serve strip lower db q)) →
  ∀ db, P db → P (foldl (serve strip lower) db reqs).
Proof.
  intros Hstep. induction reqs as [|q reqs IH]; intros db HP; simpl; [done|].
  apply IH. by apply Hstep.
Qed.

Lemma db_fresh_lookup i r :
  habits db_fresh !! i = Some r →
  i = 1 ∧ r = HabitRow "Drink Water" 0 None "2024-01-01T08:00:00" None 0.
Proof.
  unfold db_fresh. simpl. intros [<- <-]%lookup_singleton_Some. done.
Qed.

(** X1.  No request to the habit routes leaves a completion row whose
    habit is gone: if every completion row belongs to a habit of the table,
    it still does after any sequence of create, complete, uncomplete,
    update, archive, unarchive and delete requests. *)
Theorem requests_keep_referential strip lower reqs db :
  referential db → referential (foldl (serve strip lower) db reqs).
Proof.
  apply foldl_serve_invariant. intros db' q. apply serve_referential.
Qed.

Lemma requests_keep_referential_witness :
  referential (foldl (serve AsciiText.strip AsciiText.lower) db_fresh
    [PostComplete 3 1; PostHabit "2024-01-03T09:00:00" 2 " Read " None;
     PostComplete 3 2; DeleteHabit 1; PostUncomplete 3 2]).
Proof.
  apply (requests_keep_referential AsciiText.strip AsciiText.lower).
  intros h d Hin. simpl in Hin. by apply not_elem_of_empty in Hin.
Defined.

(** X2.  Habit names stay unique up to case: when no two habits have names
    with the same [LOWER], no sequence of requests creates or renames a
    habit into such a clash. *)
Theorem requests_keep_names_unique strip lower reqs db :
  names_unique lower db → names_unique lower (foldl (serve strip lower) db reqs).
Proof.
  apply (foldl_serve_invariant (names_unique lower)).
  intros db' q. apply serve_names_unique.
Qed.

Lemma requests_keep_names_unique_witness :
  names_unique AsciiText.lower
    (foldl (serve AsciiText.strip AsciiText.lower) db_fresh
       [PostHabit "2024-01-03T09:00:00" 2 "drink water" None;
        PostHabit "2024-01-03T09:00:00" 2 " Read " None;
        PatchHabit 2 (Some (Runtime.JString "DRINK WATER")) None;
        PatchHabit 1 (Some (Runtime.JString "drink water")) None]).
Proof.
  apply (requests_keep_names_unique AsciiText.strip AsciiText.lower).
  intros i j ri rj Hi Hj _.
  apply db_fresh_lookup in Hi as [-> _]. apply db_fresh_lookup in Hj as [-> _].
  reflexivity.
Defined.

(** X3.  No request gives a habit the empty name: the create route refuses
    a name that is empty after [strip], and [update_habit] refuses to rename
    to one. *)
Theorem requests_keep_names_nonempty strip lower reqs db :
  names_nonempty db → names_nonempty (foldl (serve strip lower) db reqs).
Proof.
  apply (foldl_serve_invariant names_nonempty).
  intros db' q. apply serve_names_nonempty.
Qed.

Lemma requests_keep_names_nonempty_witness :
  names_nonempty
    (foldl (serve AsciiText.strip AsciiText.lower) db_fresh
       [PostHabit "2024-01-03T09:00:00" 2 "   " None;
        PatchHabit 1 (Some (Runtime.JString " ")) (Some "07:30")]).
Proof.
  apply (requests_keep_names_nonempty AsciiText.strip AsciiText.lower).
  intros i r Hi. apply db_fresh_lookup in Hi as [_ ->]. simpl. discriminate.
Defined.

(** X4.  The archive flag of every habit stays 0 or 1, whatever requests are
    served: new habits get 0, the archive routes write 1 and 0, nothing
    else writes the column. *)
Theorem requests_keep_flags strip lower reqs db :
  flags_ok db → flags_ok (foldl (serve strip lower) db reqs).
Proof.
  apply (foldl_serve_invariant flags_ok).
  intros db' q. apply serve_flags_ok.
Qed.

Lemma requests_keep_flags_witness :
  flags_ok
    (foldl (serve AsciiText.strip AsciiText.lower) db_fresh
       [PostArchive 1; PostArchive 1; PostUnarchive 1; PostArchive 1]).
Proof.
  apply (requests_keep_flags AsciiText.strip AsciiText.lower).
  intros i r Hi. apply db_fresh_lookup in Hi as [_ ->]. by left.
Defined.

(** The completion rows of one day name distinct habits. *)
Lemma count_completions_on_le d db :
  referential db → count_completions_on d db ≤ count_habits db.
Proof.
  intros Href. unfold count_completions_on, count_habits.
  set (S := filter (λ r : Z * date, r.2 = d) (habit_completions db)).
  set (ids := list_to_set (fst <$> elements S) : gset Z).
  assert (Hnd : NoDup (fst <$> elements S)).
  { apply NoDup_fmap_2_strong; [|apply NoDup_elements].
    intros [h1 d1] [h2 d2] H1 H2 Heq. simpl in Heq. subst h2.
    apply elem_of_elements, elem_of_filter in H1 as [H1 _].
    apply elem_of_elements, elem_of_filter in H2 as [H2 _].
    simpl in *. by subst. }
  assert (Hsize : size ids = size S).
  { unfold ids. rewrite size_list_to_set by done. by rewrite length_fmap. }
  assert (Hsub : ids ⊆ dom (habits db)).
  { intros h Hh. apply elem_of_list_to_set, list_elem_of_fmap in Hh
      as [[h' d'] [-> Hin]].
    apply elem_of_elements, elem_of_filter in Hin as [_ Hin].
    apply elem_of_dom. by apply (Href h' d'). }
  apply subseteq_size in Hsub. rewrite size_dom in Hsub. lia.
Qed.

(** X5.  The number of habits done on a day, which the dashboard divides by
    the number of habits, never exceeds that number when every completion
    row belongs to a habit; so it holds after any sequence of requests. *)
Theorem done_today_at_most_total strip lower reqs d db :
  referential db →
  count_completions_on d (foldl (serve strip lower) db reqs)
  ≤ count_habits (foldl (serve strip lower) db reqs).
Proof.
  intros Href. apply count_completions_on_le.
  revert db Href. apply foldl_serve_invariant. intros db' q.
  apply serve_referential.
Qed.

Lemma done_today_at_most_total_witness :
  count_completions_on 3
    (foldl (serve AsciiText.strip AsciiText.lower) db_fresh
       [PostComplete 3 1; PostHabit "2024-01-03T09:00:00" 2 "Read" None;
        PostComplete 3 2; DeleteHabit 1])
  ≤ count_habits
    (foldl (serve AsciiText.strip AsciiText.lower) db_fresh
       [PostComplete 3 1; PostHabit "2024-01-03T09:00:00" 2 "Read" None;
        PostComplete 3 2; DeleteHabit 1]).
Proof.
  apply (done_today_at_most_total AsciiText.strip AsciiText.lower).
  intros h d Hin. simpl in Hin. by apply not_elem_of_empty in Hin.
Defined.

(** X6.  Deleting a habit, through [HabitManager.delete_habit] or through
    the DELETE route, leaves the same store.  For an id SQLite cannot bind
    nothing changes, the manager returns the text of the [OverflowError]
    and the route answers "Failed to delete habit" with status 500; for any
    other unknown id nothing changes and the answers are "Habit not found"
    (status 404); for a known id that can be bound the habit and all its
    completion rows are gone and every other habit keeps its row and its
    completion dates. *)
Theorem delete_habit_effect h db :
  (Routes.delete_habit h db).2 = (HabitManager.delete_habit h db).2
  ∧ (Runtime.bindable h = false →
       HabitManager.delete_habit h db = ((false, Runtime.too_large), db)
       ∧ Routes.delete_habit h db
         = ((Routes.ErrorBody "Failed to delete habit", 500), db))
  ∧ (Runtime.bindable h = true → habits db !! h = None →
       HabitManager.delete_habit h db = ((false, "Habit not found"%string), db)
       ∧ Routes.delete_habit h db = ((Routes.ErrorBody "Habit not found", 404), db))
  ∧ (Runtime.bindable h = true → is_Some (habits db !! h) →
       (HabitManager.delete_habit h db).1 = (true, "Habit deleted successfully"%string)
       ∧ (Routes.delete_habit h db).1 = (Routes.SuccessBody (Some true), 200)
       ∧ habits (HabitManager.delete_habit h db).2 !! h = None
       ∧ completion_dates h (HabitManager.delete_habit h db).2 = ∅
       ∧ ∀ h', h' ≠ h →
           habits (HabitManager.delete_habit h db).2 !! h' = habits db !! h'
           ∧ completion_dates h' (HabitManager.delete_habit h db).2
             = completion_dates h' db).
Proof.
  split; [apply delete_state|]. split; [|split].
  - intros Hb. unfold HabitManager.delete_habit, Routes.delete_habit.
    by rewrite Hb.
  - intros Hb Hnone. unfold HabitManager.delete_habit, Routes.delete_habit,
      select_habit, delete_habit_row, delete_completions_of. rewrite Hb. simpl.
    by rewrite Hnone.
  - intros Hb [row Hrow]. unfold HabitManager.delete_habit, Routes.delete_habit,
      select_habit, delete_habit_row, delete_completions_of. rewrite Hb. simpl.
    rewrite Hrow. simpl. split; [done|]. split; [done|]. split.
    { apply lookup_delete_eq. }
    split.
    { apply set_eq. intros d. rewrite elem_of_completion_dates. simpl.
      rewrite elem_of_filter. simpl. split; [by intros [? _]|].
      by intros ?%not_elem_of_empty. }
    intros h' Hne. split; [by apply lookup_delete_ne|].
    apply set_eq. intros d. rewrite !elem_of_completion_dates. simpl.
    rewrite elem_of_filter. simpl. split; [by intros [_ ?]|done].
Qed.

Lemma delete_habit_effect_witness :
  Routes.delete_habit (2 ^ 63) db_two
    = ((Routes.ErrorBody "Failed to delete habit", 500), db_two)
  ∧ Routes.delete_habit 5 db_two = ((Routes.ErrorBody "Habit not found", 404), db_two)
  ∧ habits (HabitManager.delete_habit 1 db_two).2 !! 1 = None
  ∧ completion_dates 1 (HabitManager.delete_habit 1 db_two).2 = ∅.
Proof.
  split; [|split].
  - apply (proj1 (proj2 (delete_habit_effect (2 ^ 63) db_two))). reflexivity.
  - apply (proj1 (proj2 (proj2 (delete_habit_effect 5 db_two)))); reflexivity.
  - destruct (proj2 (proj2 (proj2 (delete_habit_effect 1 db_two))))
      as (_ & _ & Hrow & Hdates & _); [reflexivity|by eexists|].
    split; [exact Hrow|exact Hdates].
Defined.

Lemma run_cache_ok_upto h ops : ∀ t db now,
  cache_ok h t db →
  StronglySorted Z.le (t :: (fst <$> ops) ++ [now]) →
  cache_ok h now (run ops db).
Proof.
  induction ops as [|[t1 a] ops IH]; intros t db now Hok Hs; simpl in *.
  - apply StronglySorted_inv in Hs as [_ Hall].
    apply Forall_cons in Hall as [Hle _]. by apply (cache_ok_later h t).
  - apply StronglySorted_inv in Hs as [Hs Hall].
    apply Forall_cons in Hall as [Ht1 _].
    apply (IH t1); [|done]. apply step_cache_ok. by apply (cache_ok_later h t).
Qed.

(** A history from a fresh habit whose clock ends at or before [now]. *)
Lemma fresh_run_upto h ops now db :
  fresh h db → Sorted Z.le ((fst <$> ops) ++ [now]) →
  cache_ok h now (run ops db).
Proof.
  intros Hfresh Hs. apply Sorted_StronglySorted in Hs; [|intros x y z; lia].
  destruct ops as [|[t0 a] ops'].
  - simpl in *. by apply fresh_cache_ok.
  - apply (run_cache_ok_upto h ((t0, a) :: ops') t0); [by apply fresh_cache_ok|].
    constructor; [done|]. simpl in *. constructor; [lia|].
    by apply StronglySorted_inv in Hs as [_ ?].
Qed.

Lemma sorted_clock_end (l : list Z) :
  Sorted Z.le l → ∃ now, Sorted Z.le (l ++ [now]).
Proof.
  intros Hs. exists (foldr Z.max 0 l).
  apply Sorted_StronglySorted in Hs; [|intros x y z; lia].
  apply StronglySorted_Sorted.
  assert (Hmax : Forall (λ x, x ≤ foldr Z.max 0 l) l).
  { clear Hs. induction l as [|a l IH]; simpl; constructor; [lia|].
    eapply Forall_impl; [exact IH|]. simpl. intros x Hx. lia. }
  revert Hmax. generalize (foldr Z.max 0 l) as m. intros m.
  induction Hs as [|x l Hs IH Hall]; intros Hm; simpl.
  - repeat constructor.
  - apply Forall_cons in Hm as [Hx Hm]. constructor; [by apply IH|].
    apply Forall_app. split; [done|]. by constructor.
Qed.

(** X7.  A habit just added by [add_new_habit] under a key the table does
    not use, in a store without stray completion rows, is fresh; so after
    any history of complete and uncomplete requests with a clock that never
    goes back its cached streak and [last_done] are still the ones its
    completion rows give.  Nothing else in the store changes on the
    insertion. *)
Theorem add_new_habit_fresh lower now_iso rowid nm rt db ops :
  name_taken lower nm db = false →
  habits db !! rowid = None →
  referential db →
  Sorted Z.le (fst <$> ops) →
  (add_new_habit lower now_iso rowid nm rt db).1
    = (Some (Added.Mk rowid nm 0 None false rt), None)
  ∧ fresh rowid (add_new_habit lower now_iso rowid nm rt db).2
  ∧ consistent rowid (run ops (add_new_habit lower now_iso rowid nm rt db).2)
  ∧ habit_completions (add_new_habit lower now_iso rowid nm rt db).2
    = habit_completions db
  ∧ ∀ i, i ≠ rowid →
         habits (add_new_habit lower now_iso rowid nm rt db).2 !! i = habits db !! i.
Proof.
  intros Hfree Hnone Href Hs.
  destruct (add_new_habit_state lower now_iso rowid nm rt db)
    as [[Htaken _]|[_ [rem ->]]]; [congruence|]. simpl.
  assert (Hfresh : fresh rowid (insert_habit rowid nm now_iso rem db)).
  { eexists. simpl. rewrite lookup_insert_eq. split; [done|].
    split; [done|]. split; [done|]. apply set_eq. intros d.
    rewrite elem_of_completion_dates. simpl. split; [|by intros ?%not_elem_of_empty].
    intros Hin. destruct (Href _ _ Hin) as [r Hr]. congruence. }
  split; [done|]. split; [done|]. split.
  - destruct (sorted_clock_end _ Hs) as [now Hnow].
    by destruct (fresh_run_upto rowid ops now _ Hfresh Hnow).
  - split; [done|]. intros i Hne. by apply lookup_insert_ne.
Qed.

Lemma add_new_habit_fresh_witness :
  consistent 2
    (run [(3, Complete 2); (4, Complete 2); (4, Complete 1); (6, Complete 2);
          (6, Uncomplete 2)]
       (add_new_habit AsciiText.lower "2024-01-03T09:00:00" 2 "Read" None db_fresh).2).
Proof.
  refine (proj1 (proj2 (proj2 (add_new_habit_fresh AsciiText.lower
    "2024-01-03T09:00:00" 2 "Read" None db_fresh
    [(3, Complete 2); (4, Complete 2); (4, Complete 1); (6, Complete 2);
     (6, Uncomplete 2)] _ _ _ _)))).
  - vm_compute. reflexivity.
  - vm_compute. reflexivity.
  - intros h d Hin. simpl in Hin. by apply not_elem_of_empty in Hin.
  - simpl. repeat constructor; lia.
Defined.

(** X8.  The two ways the code decides that a habit is done today agree on
    every store a history from a fresh habit leaves, read at a clock not
    before the last request: [Habit.is_done_today], which compares the
    cached [last_done] with today, and the [done_today] flag of the habit
    listings, which looks for today's completion row. *)
Theorem done_today_agrees h ops now db :
  fresh h db →
  Sorted Z.le ((fst <$> ops) ++ [now]) →
  ∃ row, habits (run ops db) !! h = Some row
    ∧ HabitManager.is_done_today (HabitManager.from_db_row h row) now
      = Status.done_today (habit_status now (run ops db) (h, row))
    ∧ (HabitManager.is_done_today (HabitManager.from_db_row h row) now = true
       ↔ (h, now) ∈ habit_completions (run ops db)).
Proof.
  intros Hfresh Hs.
  destruct (fresh_run_upto h ops now db Hfresh Hs) as [(row & Hrow & _ & Hl) Hub].
  exists row. split; [done|].
  assert (Hiff : HabitManager.is_done_today (HabitManager.from_db_row h row) now = true
                 ↔ (h, now) ∈ habit_completions (run ops db)).
  { unfold HabitManager.is_done_today. simpl. rewrite Hl.
    rewrite <- elem_of_completion_dates.
    destruct (latest _) as [m|] eqn:Hm.
    - apply latest_Some in Hm as [Hin Hmax]. rewrite Z.eqb_eq. split.
      + by intros <-.
      + intros Hnow. specialize (Hmax _ Hnow). specialize (Hub _ Hin). lia.
    - apply latest_None in Hm. rewrite Hm. split; [done|].
      by intros ?%not_elem_of_empty. }
  split; [|done]. simpl. unfold count_completion.
  destruct (HabitManager.is_done_today _ _) eqn:Hd.
  - rewrite bool_decide_eq_true_2; [done|]. by apply Hiff.
  - rewrite bool_decide_eq_false_2; [done|]. intros Hin. apply Hiff in Hin. done.
Qed.

Lemma done_today_agrees_witness :
  ∃ row, habits (run [(1, Complete 1); (2, Complete 1); (2, Uncomplete 1)] db_fresh) !! 1
         = Some row
    ∧ HabitManager.is_done_today (HabitManager.from_db_row 1 row) 2
      = Status.done_today
          (habit_status 2 (run [(1, Complete 1); (2, Complete 1); (2, Uncomplete 1)]
                             db_fresh) (1, row)).
Proof.
  destruct (done_today_agrees 1 [(1, Complete 1); (2, Complete 1); (2, Uncomplete 1)]
              2 db_fresh) as (row & Hrow & Heq & _).
  - exists (HabitRow "Drink Water" 0 None "2024-01-01T08:00:00" None 0).
    split; [vm_compute; reflexivity|]. split; [reflexivity|].
    split; [reflexivity|]. apply set_eq. intros d.
    rewrite elem_of_completion_dates. reflexivity.
  - simpl. repeat constructor; lia.
  - exists row. split; [exact Hrow|exact Heq].
Defined.

(** The rows a listing query returns. *)
Lemma elem_of_select_habits_archived flag db h row :
  (h, row) ∈ select_habits_archived flag db
  ↔ habits db !! h = Some row ∧ is_archived row = flag.
Proof.
  unfold select_habits_archived.
  rewrite merge_sort_Permutation, list_elem_of_filter, elem_of_map_to_list.
  simpl. tauto.
Qed.

Lemma NoDup_select_habits_archived flag db :
  NoDup (select_habits_archived flag db).*1.
Proof.
  unfold select_habits_archived. rewrite merge_sort_Permutation.
  eapply sublist_NoDup; [apply (NoDup_fst_map_to_list (habits db))|].
  apply fmap_sublist, sublist_filter.
Qed.

Lemma listing_ids today flag db :
  HabitService.Status.id <$> (habit_status today db <$> select_habits_archived flag db)
  = (select_habits_archived flag db).*1.
Proof. rewrite <- list_fmap_compose. by apply list_fmap_ext. Qed.

Lemma elem_of_listing_ids today flag db h :
  h ∈ HabitService.Status.id <$> (habit_status today db <$> select_habits_archived flag db)
  ↔ ∃ row, habits db !! h = Some row ∧ is_archived row = flag.
Proof.
  rewrite listing_ids, list_elem_of_fmap. split.
  - intros [[h' row] [-> Hin]]. exists row.
    by apply elem_of_select_habits_archived.
  - intros [row Hrow]. exists (h, row). split; [done|].
    by apply elem_of_select_habits_archived.
Qed.

(** X9.  When every archive flag is 0 or 1, the two listings split the
    table: each habit of the table is in exactly one of
    [get_all_habits_with_status] and [get_archived_habits], by its flag, no
    id is listed twice, and no id outside the table is listed. *)
Theorem listings_split_table today db :
  flags_ok db →
  NoDup (Status.id <$> get_all_habits_with_status today db)
  ∧ NoDup (Status.id <$> get_archived_habits today db)
  ∧ ∀ h,
      (is_Some (habits db !! h)
       ↔ h ∈ Status.id <$> get_all_habits_with_status today db
         ∨ h ∈ Status.id <$> get_archived_habits today db)
      ∧ ¬ (h ∈ Status.id <$> get_all_habits_with_status today db
           ∧ h ∈ Status.id <$> get_archived_habits today db).
Proof.
  intros Hf. unfold get_all_habits_with_status, get_archived_habits.
  split; [rewrite listing_ids; apply NoDup_select_habits_archived|].
  split; [rewrite listing_ids; apply NoDup_select_habits_archived|].
  intros h. rewrite !elem_of_listing_ids. split; [split|].
  - intros [row Hrow]. destruct (Hf _ _ Hrow); [left|right]; by exists row.
  - intros [[row [Hrow _]]|[row [Hrow _]]]; by exists row.
  - intros [[row [Hrow H0]] [row' [Hrow' H1]]]. congruence.
Qed.

Lemma listings_split_table_witness :
  NoDup (Status.id <$> get_all_habits_with_status 10 db_two)
  ∧ NoDup (Status.id <$> get_archived_habits 10 db_two).
Proof.
  destruct (listings_split_table 10 db_two) as (Ha & Hb & _).
  - intros i r. unfold db_two. simpl.
    rewrite lookup_insert. case_decide.
    + intros [= <-]. by left.
    + intros [_ <-]%lookup_singleton_Some. by right.
  - split; [exact Ha|exact Hb].
Defined.

(** X10.  Archiving a habit moves it from the active listing to the
    archived one and unarchiving moves it back; the entry shows the same
    streak, [last_done] and [done_today] as before, and the entries of the
    other habits stay in the listing they were in: after either call each
    of the two listings has the entries of other habits it had before, no
    more and no fewer. *)
Theorem archive_moves_listing today k row db :
  habits db !! k = Some row →
  (archive_habit k db).1 = (Some true, None)
  ∧ (unarchive_habit k db).1 = (Some true, None)
  ∧ habit_status today db (k, row) ∈ get_archived_habits today (archive_habit k db).2
  ∧ (k ∉ Status.id <$> get_all_habits_with_status today (archive_habit k db).2)
  ∧ habit_status today db (k, row)
      ∈ get_all_habits_with_status today (unarchive_habit k db).2
  ∧ (k ∉ Status.id <$> get_archived_habits today (unarchive_habit k db).2)
  ∧ ∀ st, Status.id st ≠ k →
      (st ∈ get_all_habits_with_status today (archive_habit k db).2
       ↔ st ∈ get_all_habits_with_status today db)
      ∧ (st ∈ get_archived_habits today (archive_habit k db).2
         ↔ st ∈ get_archived_habits today db)
      ∧ (st ∈ get_all_habits_with_status today (unarchive_habit k db).2
         ↔ st ∈ get_all_habits_with_status today db)
      ∧ (st ∈ get_archived_habits today (unarchive_habit k db).2
         ↔ st ∈ get_archived_habits today db).
Proof.
  intros Hrow.
  assert (Ha : archive_habit k db = ((Some true, None), (update_is_archived 1 k db).1)).
  { unfold archive_habit, update_is_archived. by rewrite Hrow. }
  assert (Hu : unarchive_habit k db = ((Some true, None), (update_is_archived 0 k db).1)).
  { unfold unarchive_habit, update_is_archived. by rewrite Hrow. }
  rewrite Ha, Hu. cbn [fst snd].
  assert (Hk : ∀ v, habits (update_is_archived v k db).1 !! k
                    = Some (set_is_archived v row)).
  { intros v. simpl. by rewrite lookup_alter_eq, Hrow. }
  assert (Hst : ∀ v kr, habit_status today (update_is_archived v k db).1 kr
                        = habit_status today db kr) by done.
  assert (Hmem : ∀ v flag st,
    st ∈ habit_status today (update_is_archived v k db).1
           <$> select_habits_archived flag (update_is_archived v k db).1
    ↔ ∃ h r, habits (update_is_archived v k db).1 !! h = Some r
             ∧ is_archived r = flag ∧ st = habit_status today db (h, r)).
  { intros v flag st. rewrite list_elem_of_fmap. split.
    - intros [[h r] [-> Hin]]. apply elem_of_select_habits_archived in Hin as [? ?].
      by exists h, r.
    - intros (h & r & Hr & Hflag & ->). exists (h, r). split; [done|].
      by apply elem_of_select_habits_archived. }
  assert (Hmem0 : ∀ flag st,
    st ∈ habit_status today db <$> select_habits_archived flag db
    ↔ ∃ h r, habits db !! h = Some r
             ∧ is_archived r = flag ∧ st = habit_status today db (h, r)).
  { intros flag st. rewrite list_elem_of_fmap. split.
    - intros [[h r] [-> Hin]]. apply elem_of_select_habits_archived in Hin as [? ?].
      by exists h, r.
    - intros (h & r & Hr & Hflag & ->). exists (h, r). split; [done|].
      by apply elem_of_select_habits_archived. }
  unfold get_all_habits_with_status, get_archived_habits.
  split; [done|]. split; [done|]. split.
  { apply Hmem. exists k, (set_is_archived 1 row). by rewrite Hk. }
  split.
  { rewrite elem_of_listing_ids. intros [r [Hr H0]].
    assert (r = set_is_archived 1 row) as ->
      by (apply (inj Some); rewrite <- Hr; apply (Hk 1)).
    done. }
  split.
  { apply Hmem. exists k, (set_is_archived 0 row). by rewrite Hk. }
  split.
  { rewrite elem_of_listing_ids. intros [r [Hr H1]].
    assert (r = set_is_archived 0 row) as ->
      by (apply (inj Some); rewrite <- Hr; apply (Hk 0)).
    done. }
  intros st Hne.
  assert (Hother : ∀ v flag,
    st ∈ habit_status today (update_is_archived v k db).1
           <$> select_habits_archived flag (update_is_archived v k db).1
    ↔ st ∈ habit_status today db <$> select_habits_archived flag db).
  { intros v flag. rewrite Hmem, Hmem0. split.
    - intros (h & r & Hr & Hflag & ->). simpl in Hne. exists h, r.
      simpl in Hr. rewrite lookup_alter_ne in Hr by done. done.
    - intros (h & r & Hr & Hflag & ->). simpl in Hne. exists h, r.
      simpl. by rewrite lookup_alter_ne. }
  split; [apply Hother|]. split; [apply Hother|]. split; apply Hother.
Qed.

Lemma archive_moves_listing_witness :
  1 ∉ Status.id <$> get_all_habits_with_status 9 (archive_habit 1 db_two).2.
Proof.
  refine (proj1 (proj2 (proj2 (proj2 (archive_moves_listing 9 1
    (HabitRow "Drink Water" 3 (Some 9) "2024-01-01T08:00:00" None 0) db_two _))))).
  vm_compute. reflexivity.
Defined.



Lemma DB_eq (a b : DB) :
  habits a = habits b → habit_completions a = habit_completions b → a = b.
Proof. destruct a, b. simpl. by intros -> ->. Qed.

(** X12.  Undoing today's completion and completing again repairs the
    cache: whatever streak and [last_done] the habit had stored, if it has a
    completion row for today and none dated later, then after
    [uncomplete_habit_for_today] followed by [complete_habit_for_today] the
    stored values are the ones its completion rows give, the completion
    rows are those from before, and the other habits are untouched; when
    the stored values were right already, the store is back as it was. *)
Theorem undo_redo_repairs today h row db :
  habits db !! h = Some row →
  (h, today) ∈ habit_completions db →
  (∀ d, d ∈ completion_dates h db → d ≤ today) →
  consistent h (complete_habit_for_today today h
                  (uncomplete_habit_for_today today h db).2).2
  ∧ habit_completions (complete_habit_for_today today h
                         (uncomplete_habit_for_today today h db).2).2
    = habit_completions db
  ∧ (∀ h', h' ≠ h →
       habits (complete_habit_for_today today h
                 (uncomplete_habit_for_today today h db).2).2 !! h'
       = habits db !! h')
  ∧ (consistent h db →
       (complete_habit_for_today today h
          (uncomplete_habit_for_today today h db).2).2 = db).
Proof.
  intros Hrow Hin Hub.
  assert (Hok1 : cache_ok h today (uncomplete_habit_for_today today h db).2).
  { rewrite (uncomplete_ok _ _ _ row) by done. simpl. split.
    - eexists. rewrite lookup_update_streak, completion_dates_update.
      simpl. rewrite Hrow. simpl. split; [done|]. by split.
    - intros d. rewrite completion_dates_update, completion_dates_delete.
      intros [Hd _]%elem_of_difference. by apply Hub. }
  pose proof (complete_cache_ok h today _ Hok1) as [Hc2 _].
  rewrite (uncomplete_ok _ _ _ row) in Hc2 |- * by done. simpl in Hc2 |- *.
  set (D1 := completion_dates h (delete_completion h today db)) in *.
  set (row1 := set_streak_last_done (derived_streak D1) (latest D1) row).
  set (db1 := update_streak (derived_streak D1) (latest D1) h
                (delete_completion h today db)) in *.
  assert (Hrow1 : habits db1 !! h = Some row1).
  { unfold db1. rewrite lookup_update_streak. simpl. by rewrite Hrow. }
  assert (Hnot1 : (h, today) ∉ habit_completions db1) by (simpl; set_solver).
  rewrite (complete_ok _ _ _ row1) in Hc2 |- * by done.
  cbn [snd] in Hc2 |- *.
  assert (Hcomp : habit_completions
            (update_streak (next_streak row1 today) (Some today) h
               (insert_completion h today db1)) = habit_completions db).
  { simpl. apply set_eq. intros x. rewrite elem_of_union, elem_of_singleton,
      elem_of_difference, elem_of_singleton.
    destruct (decide (x = (h, today))) as [->|]; [tauto|]. tauto. }
  assert (Hothers : ∀ h', h' ≠ h →
            habits (update_streak (next_streak row1 today) (Some today) h
                      (insert_completion h today db1)) !! h' = habits db !! h').
  { intros h' Hne. simpl. by rewrite !lookup_alter_ne. }
  split; [done|]. split; [done|]. split; [done|].
  intros (row0 & Hrow0 & Hs0 & Hl0).
  assert (row0 = row) as -> by congruence.
  destruct Hc2 as (row2 & Hrow2 & Hs2 & Hl2).
  assert (HD : completion_dates h
            (update_streak (next_streak row1 today) (Some today) h
               (insert_completion h today db1)) = completion_dates h db).
  { apply set_eq. intros d. rewrite !elem_of_completion_dates. by rewrite Hcomp. }
  rewrite HD in Hs2, Hl2.
  assert (row2 = set_streak_last_done (next_streak row1 today) (Some today) row1)
    as ->.
  { apply (inj Some). rewrite <- Hrow2, lookup_update_streak.
    change (habits (insert_completion h today db1)) with (habits db1).
    by rewrite Hrow1. }
  cbn [streak last_done set_streak_last_done] in Hs2, Hl2.
  apply DB_eq; [|exact Hcomp].
  apply map_eq. intros i. destruct (decide (i = h)) as [->|Hne]; [|by apply Hothers].
  rewrite lookup_update_streak.
  change (habits (insert_completion h today db1)) with (habits db1).
  rewrite Hrow1, Hrow. cbn [fmap option_fmap option_map]. f_equal.
  rewrite Hs2, Hl2, <- Hs0, <- Hl0.
  unfold row1, set_streak_last_done. cbn [name created_at reminder_time is_archived].
  by destruct row.
Qed.

Lemma undo_redo_repairs_witness :
  consistent 1 (complete_habit_for_today 10 1
                  (uncomplete_habit_for_today 10 1
                     (MkDB (habits db_sample) {[ (1, 10); (1, 9) ]})).2).2.
Proof.
  refine (proj1 (undo_redo_repairs 10 1
    (HabitRow "Drink Water" 5 (Some 10) "2024-01-01 08:00:00" None 0)
    (MkDB (habits db_sample) {[ (1, 10); (1, 9) ]}) _ _ _)).
  - vm_compute. reflexivity.
  - simpl. apply elem_of_union. left. by apply elem_of_singleton.
  - intros d. rewrite elem_of_completion_dates. simpl.
    intros [[= ->]%elem_of_singleton|[= ->]%elem_of_singleton]%elem_of_union; lia.
Defined.

(** X13.  Along every history from a fresh habit with a clock that never
    goes back, the stored streak lies between 0 and the number of the
    habit's completion rows, and it is 0 exactly when there are no rows,
    which is exactly when [last_done] is empty. *)
Theorem streak_within_rows h ops db :
  fresh h db →
  Sorted Z.le (fst <$> ops) →
  ∃ row, habits (run ops db) !! h = Some row
    ∧ 0 ≤ streak row ≤ Z.of_nat (size (completion_dates h (run ops db)))
    ∧ (streak row = 0 ↔ completion_dates h (run ops db) = ∅)
    ∧ (last_done row = None ↔ completion_dates h (run ops db) = ∅).
Proof.
  intros Hfresh Hs. destruct (sorted_clock_end _ Hs) as [now Hnow].
  destruct (fresh_run_upto h ops now db Hfresh Hnow) as [(row & Hrow & Hst & Hl) _].
  exists row. split; [done|].
  set (D := completion_dates h (run ops db)) in *.
  rewrite Hst, Hl. unfold derived_streak.
  destruct (latest D) as [m|] eqn:Hm.
  - pose proof (walk_back_le_fuel D m (size D)).
    pose proof (derived_streak_run D m Hm) as [H1 _].
    unfold derived_streak in H1. rewrite Hm in H1.
    apply latest_Some in Hm as [Hin _].
    assert (D ≠ ∅) by (intros HD; rewrite HD in Hin; by apply not_elem_of_empty in Hin).
    split; [lia|]. split; (split; [intros; first [lia|done]|done]).
  - apply latest_None in Hm. split; [lia|]. done.
Qed.

Lemma streak_within_rows_witness :
  ∃ row, habits (run [(1, Complete 1); (2, Complete 1); (4, Complete 1)] db_fresh) !! 1
         = Some row
    ∧ 0 ≤ streak row
      ≤ Z.of_nat (size (completion_dates 1
           (run [(1, Complete 1); (2, Complete 1); (4, Complete 1)] db_fresh))).
Proof.
  destruct (streak_within_rows 1 [(1, Complete 1); (2, Complete 1); (4, Complete 1)]
              db_fresh) as (row & Hrow & Hb & _).
  - exists (HabitRow "Drink Water" 0 None "2024-01-01T08:00:00" None 0).
    split; [vm_compute; reflexivity|]. split; [reflexivity|].
    split; [reflexivity|]. apply set_eq. intros d.
    rewrite elem_of_completion_dates. reflexivity.
  - simpl. repeat constructor; lia.
  - exists row. split; [exact Hrow|exact Hb].
Defined.

(** X14.  The complete and uncomplete routes, case by case.  For an id
    SQLite cannot bind the service call raises and the answer is 500.  For
    any other id: 404 when the habit is unknown; 400 for an existing habit
    whose completion row for today is already there (complete) or missing
    (uncomplete); otherwise 200 with the new streak, except that complete
    is answered 500 when the new streak itself cannot be bound.  Only the
    200 answers change the store, to the one the service call leaves. *)
Theorem completion_routes_status today m h db :
  (Runtime.bindable h = false →
     Routes.complete_habit today m h db = ((Routes.Unhandled, 500), db)
     ∧ Routes.uncomplete_habit today h db = ((Routes.Unhandled, 500), db))
  ∧ (Runtime.bindable h = true → habits db !! h = None →
       Routes.complete_habit today m h db
         = ((Routes.ErrorBody "Habit not found", 404), db)
       ∧ Routes.uncomplete_habit today h db
         = ((Routes.ErrorBody "Habit not found", 404), db))
  ∧ (Runtime.bindable h = true → ∀ row, habits db !! h = Some row →
       ((h, today) ∈ habit_completions db →
          Routes.complete_habit today m h db
            = ((Routes.ErrorBody "Habit already completed today", 400), db)
          ∧ (Routes.uncomplete_habit today h db).1.2 = 200
          ∧ (Routes.uncomplete_habit today h db).2
            = (uncomplete_habit_for_today today h db).2)
       ∧ ((h, today) ∉ habit_completions db →
            Routes.uncomplete_habit today h db
              = ((Routes.ErrorBody "Habit not completed today", 400), db)
            ∧ (Runtime.bindable (next_streak row today) = true →
                 Routes.complete_habit today m h db
                 = ((Routes.CompletedBody
                       (StreakResult true (next_streak row today)) m, 200),
                    (complete_habit_for_today today h db).2))
            ∧ (Runtime.bindable (next_streak row today) = false →
                 Routes.complete_habit today m h db
                 = ((Routes.Unhandled, 500), db)))).
Proof.
  unfold Routes.complete_habit, Routes.uncomplete_habit. split; [|split].
  - intros Hb.
    by rewrite dynamic_complete_unbindable, dynamic_uncomplete_unbindable.
  - intros Hb Hnone.
    by rewrite dynamic_complete_not_found, dynamic_uncomplete_bindable,
      uncomplete_not_found.
  - intros Hb row Hrow. rewrite dynamic_uncomplete_bindable by done. split.
    + intros Hin. rewrite (dynamic_complete_already _ _ _ row) by done.
      by rewrite (uncomplete_ok _ _ _ row).
    + intros Hnot. rewrite (dynamic_complete_ok _ _ _ row) by done.
      rewrite (uncomplete_not_completed _ _ _ row) by done.
      split; [done|]. rewrite (complete_ok _ _ _ row) by done.
      split; intros ->; done.
Qed.

Lemma completion_routes_status_witness :
  Routes.complete_habit 10 EmptyString (2 ^ 63) db_two
    = ((Routes.Unhandled, 500), db_two)
  ∧ Routes.uncomplete_habit 10 5 db_two
    = ((Routes.ErrorBody "Habit not found", 404), db_two)
  ∧ (Routes.complete_habit 10 EmptyString 1 db_two).1
    = (Routes.CompletedBody (StreakResult true 4) EmptyString, 200)
  ∧ Routes.complete_habit 10 EmptyString 1 db_imported
    = ((Routes.Unhandled, 500), db_imported).
Proof.
  split; [|split; [|split]]; cycle 3.
  { destruct (proj2 (proj2 (completion_routes_status 10 EmptyString 1 db_imported))
               eq_refl (HabitRow "Drink Water" (2 ^ 63 - 1) (Some 9)
                          "2024-01-01T08:00:00" None 0)
               eq_refl) as [_ Hnot].
    destruct Hnot as (_ & _ & Hraise).
    - rewrite <- completion_exists_false. vm_compute. reflexivity.
    - apply Hraise. reflexivity. }
  - apply (proj1 (completion_routes_status 10 EmptyString (2 ^ 63) db_two)).
    reflexivity.
  - apply (proj1 (proj2 (completion_routes_status 10 EmptyString 5 db_two)));
      reflexivity.
  - destruct (proj2 (proj2 (completion_routes_status 10 EmptyString 1 db_two))
               eq_refl (HabitRow "Drink Water" 3 (Some 9) "2024-01-01T08:00:00" None 0)
               eq_refl) as [_ Hnot].
    destruct Hnot as (_ & Hok & _).
    + rewrite <- completion_exists_false. vm_compute. reflexivity.
    + rewrite Hok by reflexivity. reflexivity.
Defined.




(** One round of the statistics loop. *)
Lemma count_streak_step (s : HabitManager.streak_stats) (a : Z) :
  let s' := HabitManager.count_streak s a in
  HabitManager.excellent s' + HabitManager.good s' + HabitManager.starting s'
    + HabitManager.inactive s'
  = HabitManager.excellent s + HabitManager.good s + HabitManager.starting s
    + HabitManager.inactive s + 1
  ∧ HabitManager.total_active_streaks s'
      - (HabitManager.excellent s' + HabitManager.good s' + HabitManager.starting s')
    = HabitManager.total_active_streaks s
      - (HabitManager.excellent s + HabitManager.good s + HabitManager.starting s)
  ∧ HabitManager.longest_streak s' = Z.max (HabitManager.longest_streak s) a.
Proof.
  unfold HabitManager.count_streak.
  destruct (Z.leb_spec 7 a), (Z.leb_spec 3 a), (Z.leb_spec 1 a), (Z.ltb_spec 0 a);
    cbn; destruct (Z.ltb_spec (HabitManager.longest_streak s) a); cbn; lia.
Qed.

Lemma count_streak_fold (l : list Z) : ∀ s,
  let s' := foldl HabitManager.count_streak s l in
  HabitManager.excellent s' + HabitManager.good s' + HabitManager.starting s'
    + HabitManager.inactive s'
  = HabitManager.excellent s + HabitManager.good s + HabitManager.starting s
    + HabitManager.inactive s + Z.of_nat (length l)
  ∧ HabitManager.total_active_streaks s'
      - (HabitManager.excellent s' + HabitManager.good s' + HabitManager.starting s')
    = HabitManager.total_active_streaks s
      - (HabitManager.excellent s + HabitManager.good s + HabitManager.starting s)
  ∧ HabitManager.longest_streak s ≤ HabitManager.longest_streak s'
  ∧ (∀ x, x ∈ l → x ≤ HabitManager.longest_streak s')
  ∧ (HabitManager.longest_streak s' = HabitManager.longest_streak s
     ∨ HabitManager.longest_streak s' ∈ l).
Proof.
  induction l as [|a l IH]; intros s; simpl.
  - split; [lia|]. split; [lia|]. split; [lia|].
    split; [by intros x ?%elem_of_nil|by left].
  - destruct (IH (HabitManager.count_streak s a)) as (H1 & H2 & H3 & H4 & H5).
    destruct (count_streak_step s a) as (S1 & S2 & S3). simpl in S1, S2, S3.
    split; [lia|]. split; [lia|]. split; [lia|]. split.
    + intros x [->|Hx]%elem_of_cons; [lia|by apply H4].
    + destruct H5 as [H5|H5].
      * rewrite H5, S3. destruct (Z.max_spec (HabitManager.longest_streak s) a)
          as [[_ ->]|[_ ->]]; [right; apply elem_of_cons; by left|by left].
      * right. apply elem_of_cons. by right.
Qed.

(** X16.  The streak statistics of [get_habit_statistics] add up: the four
    buckets (7 and more, 3 to 6, 1 or 2, none) together count every habit
    once, the active streaks are the habits in the first three buckets, and
    the longest streak is at least every habit's streak and is either 0 or
    the streak of some habit. *)
Theorem streak_statistics_add_up db :
  let s := HabitManager.streak_statistics db in
  HabitManager.excellent s + HabitManager.good s + HabitManager.starting s
    + HabitManager.inactive s = count_habits db
  ∧ HabitManager.total_active_streaks s
    = HabitManager.excellent s + HabitManager.good s + HabitManager.starting s
  ∧ 0 ≤ HabitManager.longest_streak s
  ∧ (∀ h row, habits db !! h = Some row → streak row ≤ HabitManager.longest_streak s)
  ∧ (HabitManager.longest_streak s = 0
     ∨ ∃ h row, habits db !! h = Some row
                ∧ streak row = HabitManager.longest_streak s).
Proof.
  unfold HabitManager.streak_statistics.
  destruct (count_streak_fold (select_streaks db) (HabitManager.StreakStats 0 0 0 0 0 0))
    as (H1 & H2 & H3 & H4 & H5). simpl in H1, H2, H3, H5.
  assert (Hmem : ∀ x, x ∈ select_streaks db
                      ↔ ∃ h row, habits db !! h = Some row ∧ streak row = x).
  { intros x. unfold select_streaks. rewrite list_elem_of_fmap. split.
    - intros [[h row] [-> Hin]]. apply elem_of_map_to_list in Hin. by exists h, row.
    - intros (h & row & Hrow & <-). exists (h, row). split; [done|].
      by apply elem_of_map_to_list. }
  cbv zeta. split.
  { rewrite H1. unfold count_habits, select_streaks.
    rewrite length_fmap, length_map_to_list. lia. }
  split; [lia|]. split; [lia|]. split.
  - intros h row Hrow. apply H4. apply Hmem. by exists h, row.
  - destruct H5 as [H5|H5]; [by left|]. right. by apply Hmem.
Qed.

(** X17.  Right after a successful completion on day [today] the habit
    object reads as done today, and [Habit.is_streak_active] holds on
    exactly the days up to the day after [today]. *)
Theorem active_after_complete today h row db t :
  habits db !! h = Some row →
  (h, today) ∉ habit_completions db →
  ∃ row', habits (complete_habit_for_today today h db).2 !! h = Some row'
    ∧ HabitManager.is_done_today (HabitManager.from_db_row h row') today = true
    ∧ HabitManager.days_since_last_done (HabitManager.from_db_row h row') t
      = HabitManager.Days (t - today)
    ∧ (HabitManager.is_streak_active (HabitManager.from_db_row h row') t = true
       ↔ t ≤ today + 1).
Proof.
  intros Hrow Hnot. rewrite (complete_ok _ _ _ row) by done.
  eexists. split; [simpl; by rewrite lookup_alter_eq, Hrow|].
  unfold HabitManager.is_done_today, HabitManager.is_streak_active,
    HabitManager.days_since_last_done. simpl.
  split; [apply Z.eqb_refl|]. split; [done|]. rewrite Z.leb_le. lia.
Qed.

Lemma active_after_complete_witness :
  ∃ row', habits (complete_habit_for_today 3 1 db_fresh).2 !! 1 = Some row'
    ∧ (HabitManager.is_streak_active (HabitManager.from_db_row 1 row') 5 = true
       ↔ 5 ≤ 3 + 1).
Proof.
  destruct (active_after_complete 3 1
    (HabitRow "Drink Water" 0 None "2024-01-01T08:00:00" None 0) db_fresh 5)
    as (row' & Hrow' & _ & _ & Hact).
  - vm_compute. reflexivity.
  - rewrite <- completion_exists_false. vm_compute. reflexivity.
  - exists row'. split; [exact Hrow'|exact Hact].
Defined.

(** X18.  [HabitManager.complete_habit] and
    [HabitService.complete_habit_for_today] run the same statements and
    differ in the [try].  On every id, store and day they leave the same
    store.  Where the service method returns, the manager returns the same
    outcome: the same new streak on success, the same message on failure.
    Where the service method raises, for an id or a new streak SQLite
    cannot bind, the manager returns [(False, str(e), None)]. *)
Theorem manager_and_service_agree today h db :
  (Dynamic.complete_habit today h db).2
  = (Dynamic.complete_habit_for_today today h db).2
  ∧ match (Dynamic.complete_habit_for_today today h db).1 with
    | Runtime.Raise _ =>
      Dynamic.complete_habit today h db = ((false, Runtime.too_large, None), db)
    | Runtime.Return (Some result, error) =>
      error = None
      ∧ (Dynamic.complete_habit today h db).1
        = (true, "Habit completed!"%string,
           Some (HabitManager.Completion (new_streak result) today))
    | Runtime.Return (None, error) =>
      ∃ e, error = Some e
           ∧ (Dynamic.complete_habit today h db).1 = (false, e, None)
    end.
Proof.
  unfold Dynamic.complete_habit, Dynamic.complete_habit_for_today.
  destruct (Runtime.bindable h); [|done].
  destruct (habits db !! h) as [row|] eqn:Hrow.
  - destruct (decide ((h, today) ∈ habit_completions db)) as [Hin|Hnot].
    + rewrite (complete_already _ _ _ row), (manager_complete_already _ _ _ row)
        by done.
      split; [done|]. by eexists.
    + rewrite (complete_ok _ _ _ row), (manager_complete_ok _ _ _ row) by done.
      cbn [new_streak HabitManager.new_streak].
      by destruct (Runtime.bindable (next_streak row today)).
  - rewrite complete_not_found by done.
    unfold HabitManager.complete_habit, select_habit. rewrite Hrow.
    split; [done|]. by eexists.
Qed.

Lemma manager_and_service_agree_witness :
  Dynamic.complete_habit_for_today 10 1 db_imported
    = (Runtime.Raise Runtime.OverflowError, db_imported)
  ∧ Dynamic.complete_habit 10 1 db_imported
    = ((false, Runtime.too_large, None), db_imported)
  ∧ (Dynamic.complete_habit 10 1 db_two).1
    = (true, "Habit completed!"%string, Some (HabitManager.Completion 4 10)).
Proof.
  assert (E : Dynamic.complete_habit_for_today 10 1 db_imported
              = (Runtime.Raise Runtime.OverflowError, db_imported))
    by (vm_compute; reflexivity).
  split; [exact E|]. split.
  - destruct (manager_and_service_agree 10 1 db_imported) as [_ H].
    rewrite E in H. exact H.
  - destruct (manager_and_service_agree 10 1 db_two) as [_ H].
    assert (E2 : (Dynamic.complete_habit_for_today 10 1 db_two).1
                 = Runtime.Return (Some (StreakResult true 4), None))
      by (vm_compute; reflexivity).
    rewrite E2 in H. exact (proj2 H).
Defined.

End more.

(** ** Properties of the task services *)

Section tasks.
Import TaskSchema TaskSql.

Lemma complete_task_found v id (tasks : gmap Z task_row) row :
  tasks !! id = Some row →
  update_done v id tasks = (<[id := set_done v row]> tasks, 1).
Proof.
  intros Hrow. unfold update_done. rewrite Hrow. f_equal.
  apply map_eq. intros i. rewrite lookup_alter, lookup_insert.
  case_decide; [subst; by rewrite Hrow|done].
Qed.

Lemma complete_task_by_id_found id (tasks : gmap Z task_row) row :
  tasks !! id = Some row →
  TaskService.complete_task_by_id id tasks
  = ((true, None), <[id := set_done 1 row]> tasks).
Proof.
  intros Hrow. unfold TaskService.complete_task_by_id.
  by rewrite (complete_task_found _ _ _ row).
Qed.

Lemma uncomplete_task_by_id_found id (tasks : gmap Z task_row) row :
  tasks !! id = Some row →
  TaskService.uncomplete_task_by_id id tasks
  = ((true, None), <[id := set_done 0 row]> tasks).
Proof.
  intros Hrow. unfold TaskService.uncomplete_task_by_id.
  by rewrite (complete_task_found _ _ _ row).
Qed.

(** X19.  [complete_task_by_id] and [uncomplete_task_by_id] raise
    [OverflowError] and change nothing for an id SQLite cannot bind, and
    answer "Task not found" and change nothing for any other unknown id.
    For a known task they set [done] to 1 and 0 and touch no other column
    or task; repeating a call changes nothing more, and of two calls in a
    row the second one decides, so undoing does not bring back an earlier
    state of the flag. *)
Theorem task_completion_effect id (tasks : gmap Z task_row) :
  (Runtime.bindable id = false →
     TaskDynamic.complete_task_by_id id tasks
       = (Runtime.Raise Runtime.OverflowError, tasks)
     ∧ TaskDynamic.uncomplete_task_by_id id tasks
       = (Runtime.Raise Runtime.OverflowError, tasks))
  ∧ (Runtime.bindable id = true → tasks !! id = None →
       TaskDynamic.complete_task_by_id id tasks
         = (Runtime.Return (false, Some "Task not found"%string), tasks)
       ∧ TaskDynamic.uncomplete_task_by_id id tasks
         = (Runtime.Return (false, Some "Task not found"%string), tasks))
  ∧ (Runtime.bindable id = true → ∀ row, tasks !! id = Some row →
       TaskDynamic.complete_task_by_id id tasks
         = (Runtime.Return (true, None), <[id := set_done 1 row]> tasks)
       ∧ TaskDynamic.uncomplete_task_by_id id tasks
         = (Runtime.Return (true, None), <[id := set_done 0 row]> tasks)
       ∧ (TaskDynamic.complete_task_by_id id
            (TaskDynamic.complete_task_by_id id tasks).2).2
         = (TaskDynamic.complete_task_by_id id tasks).2
       ∧ (TaskDynamic.uncomplete_task_by_id id
            (TaskDynamic.complete_task_by_id id tasks).2).2
         = (TaskDynamic.uncomplete_task_by_id id tasks).2
       ∧ (TaskDynamic.complete_task_by_id id
            (TaskDynamic.uncomplete_task_by_id id tasks).2).2
         = (TaskDynamic.complete_task_by_id id tasks).2).
Proof.
  unfold TaskDynamic.complete_task_by_id, TaskDynamic.uncomplete_task_by_id.
  split; [by intros ->|]. split.
  - intros -> Hnone.
    unfold TaskService.complete_task_by_id, TaskService.uncomplete_task_by_id,
      update_done. by rewrite Hnone.
  - intros -> row Hrow.
    rewrite (complete_task_by_id_found id tasks row),
      (uncomplete_task_by_id_found id tasks row) by done.
    cbn [snd]. split; [done|]. split; [done|].
    rewrite (complete_task_by_id_found id _ (set_done 1 row)),
      (uncomplete_task_by_id_found id _ (set_done 1 row)),
      (complete_task_by_id_found id _ (set_done 0 row)) by apply lookup_insert_eq.
    cbn [snd]. by rewrite !insert_insert_eq.
Qed.

Lemma task_completion_effect_witness :
  TaskDynamic.complete_task_by_id (2 ^ 63) tasks_two
    = (Runtime.Raise Runtime.OverflowError, tasks_two)
  ∧ TaskDynamic.uncomplete_task_by_id 7 tasks_two
    = (Runtime.Return (false, Some "Task not found"%string), tasks_two)
  ∧ (TaskDynamic.uncomplete_task_by_id 1
       (TaskDynamic.complete_task_by_id 1 tasks_two).2).2
    = (TaskDynamic.uncomplete_task_by_id 1 tasks_two).2.
Proof.
  split; [|split].
  - apply (proj1 (task_completion_effect (2 ^ 63) tasks_two)). reflexivity.
  - apply (proj1 (proj2 (task_completion_effect 7 tasks_two))); reflexivity.
  - destruct (proj2 (proj2 (task_completion_effect 1 tasks_two)) eq_refl
               (TaskRow "Buy groceries" 0 10 "2024-01-10T08:00:00" None) eq_refl)
      as (_ & _ & _ & H & _).
    exact H.
Defined.

Lemma toggle_found id (tasks : gmap Z task_row) row :
  tasks !! id = Some row →
  TaskManager.toggle_task_completion id tasks
  = if done row =? 0
    then ((true, "Task completed"%string, Some true), <[id := set_done 1 row]> tasks)
    else ((true, "Task marked as pending"%string, Some false),
          <[id := set_done 0 row]> tasks).
Proof.
  intros Hrow. unfold TaskManager.toggle_task_completion. rewrite Hrow. cbv zeta.
  destruct (done row =? 0); cbn [negb];
    by rewrite (complete_task_found _ _ _ row).
Qed.

(** X20.  [toggle_task_completion] on a known task does what the task
    service does: it completes a pending task and uncompletes any other.
    When the flag is 0 or 1, toggling twice gives back the table, and the
    two calls report the new statuses in turn. *)
Theorem toggle_twice id (tasks : gmap Z task_row) row :
  tasks !! id = Some row →
  (done row = 0 →
     TaskManager.toggle_task_completion id tasks
     = ((true, "Task completed"%string, Some true),
        (TaskService.complete_task_by_id id tasks).2))
  ∧ (done row ≠ 0 →
       TaskManager.toggle_task_completion id tasks
       = ((true, "Task marked as pending"%string, Some false),
          (TaskService.uncomplete_task_by_id id tasks).2))
  ∧ (done row = 0 ∨ done row = 1 →
       (TaskManager.toggle_task_completion id
          (TaskManager.toggle_task_completion id tasks).2).2 = tasks).
Proof.
  intros Hrow.
  rewrite (complete_task_by_id_found id tasks row),
    (uncomplete_task_by_id_found id tasks row), (toggle_found id tasks row) by done.
  cbn [snd]. split; [by intros ->|]. split.
  { intros Hd. apply Z.eqb_neq in Hd. by rewrite Hd. }
  intros [Hd|Hd]; rewrite Hd; cbn [Z.eqb snd].
  - rewrite (toggle_found id _ (set_done 1 row)) by apply lookup_insert_eq.
    cbn [done set_done Z.eqb snd]. rewrite insert_insert_eq. apply insert_id.
    rewrite Hrow. f_equal. destruct row. simpl in *. by subst.
  - rewrite (toggle_found id _ (set_done 0 row)) by apply lookup_insert_eq.
    cbn [done set_done Z.eqb snd]. rewrite insert_insert_eq. apply insert_id.
    rewrite Hrow. f_equal. destruct row. simpl in *. by subst.
Qed.

Lemma toggle_twice_witness :
  (TaskManager.toggle_task_completion 2
     (TaskManager.toggle_task_completion 2 tasks_two).2).2 = tasks_two.
Proof.
  refine (proj2 (proj2 (toggle_twice 2 tasks_two
    (TaskRow "Call dentist for appointment" 1 10 "2024-01-10T09:00:00" None) _)) _).
  - vm_compute. reflexivity.
  - right. reflexivity.
Defined.

End tasks.
